(** * vite-plugin-build: the per-file build orchestration of [buildFiles.ts]

    A shallow embedding of [packages/vite-plugin-build/src/buildFiles.ts]:
    the output-path resolver, the default [external] classifier, the
    synthesis of the per-format build configuration, the single-file driver
    [transformFile] and the batch orchestrator [buildFiles].

    JavaScript strings are modelled as [string] (a sequence of code units:
    every operation used here compares units with ['/'] and ['.'] or with
    each other, so the width of a unit plays no role).  The module-level
    [let incrementCount] and the calls made to the caller's callbacks and to
    [console.error] are threaded through a small state monad. *)

From Stdlib Require Import String Ascii List ZArith Bool Arith Lia Permutation.
Import ListNotations.

Open Scope list_scope.
Open Scope string_scope.

(* ================================================================== *)
(** * JavaScript string primitives used by the source *)
(* ================================================================== *)

Module Js.

(** [s.startsWith(pat)]. *)
Definition startsWith (pat s : string) : bool := String.prefix pat s.

(** [s.includes(pat)]: [pat] occurs in [s] at some position. *)
Fixpoint includes (s pat : string) : bool :=
  if startsWith pat s then true
  else match s with
       | EmptyString => false
       | String _ s' => includes s' pat
       end.

(** The suffix of [s] from position [n] on. *)
Fixpoint drop (n : nat) (s : string) : string :=
  match n, s with
  | O, _ => s
  | S _, EmptyString => EmptyString
  | S n', String _ s' => drop n' s'
  end.

(** [s.replace(pat, rep)] for a string pattern [pat] and a replacement
    without [$] patterns (the source only passes ['.js']): the first
    occurrence of [pat], scanning from the left, is replaced; a string
    without occurrence is returned as it is.  The empty pattern occurs at
    position 0. *)
Fixpoint replace (pat rep s : string) : string :=
  if startsWith pat s then rep ++ drop (String.length pat) s
  else match s with
       | EmptyString => EmptyString
       | String c s' => String c (replace pat rep s')
       end.

(** [s.slice(a, b)] for [0 <= a <= b]. *)
Definition slice (s : string) (a b : Z) : string :=
  substring (Z.to_nat a) (Z.to_nat (b - a)) s.

(** [s.lastIndexOf(c)] for a one-unit string [c]; [-1] when absent. *)
Fixpoint lastIndexOf_from (c : ascii) (s : string) (i : Z) (found : Z) : Z :=
  match s with
  | EmptyString => found
  | String d s' =>
      lastIndexOf_from c s' (i + 1) (if Ascii.eqb d c then i else found)
  end.

Definition lastIndexOf (s : string) (c : ascii) : Z :=
  lastIndexOf_from c s 0 (-1).

Definition length (s : string) : Z := Z.of_nat (String.length s).

(** The regular expression [/[^/]*\//] tried at the start of [s]: the
    greedy class [[^/]*] takes the longest run without a slash, and the
    match succeeds when a slash follows (giving up units of the run cannot
    help: the unit after a shorter run is no slash).  The result is what
    is left of [s] after the match. *)
Fixpoint match_segment_here (s : string) : option string :=
  match s with
  | EmptyString => None
  | String c s' =>
      if Ascii.eqb c "/" then Some s' else match_segment_here s'
  end.

(** [s.replace(/[^/]*\//, '')]: the leftmost match is removed, the start
    positions being tried from the left. *)
Fixpoint replace_first_segment (s : string) : string :=
  match match_segment_here s with
  | Some rest => rest
  | None =>
      match s with
      | EmptyString => EmptyString
      | String c s' => String c (replace_first_segment s')
      end
  end.

End Js.

(* ================================================================== *)
(** * Node's [path] module *)
(* ================================================================== *)

(** The source reaches the platform through [path.extname], [path.basename],
    [path.dirname], [path.resolve], [path.normalize] and [process.cwd()].
    [path] differs between platforms (the source's own comment speaks of
    Windows), so the embedding takes it as an interface. *)
Class Platform : Type := {
  path_extname : string -> string;
  path_basename : string -> string;
  path_dirname : string -> string;
  path_resolve : list string -> string;
  path_normalize : string -> string;
  process_cwd : string
}.

(** The POSIX implementation of [path], after Node's [lib/path.js]. *)
Module Posix.

Definition CHAR_FORWARD_SLASH : ascii := "/".
Definition CHAR_DOT : ascii := ".".

Definition isPathSeparator (c : ascii) : bool := Ascii.eqb c CHAR_FORWARD_SLASH.

(** ** [extname] *)

Record ExtScan : Type := {
  startDot : Z;
  startPart : Z;
  end_ : Z;
  matchedSlash : bool;
  preDotState : Z
}.

(** The loop [for (i = path.length - 1; i >= 0; --i)]; [n] is [i + 1]. *)
Fixpoint extname_loop (path : string) (n : nat) (st : ExtScan) : ExtScan :=
  match n with
  | O => st
  | S i =>
      match String.get i path with
      | None => st
      | Some code =>
          if isPathSeparator code then
            if negb (matchedSlash st) then
              (* startPart = i + 1; break *)
              {| startDot := startDot st; startPart := Z.of_nat i + 1;
                 end_ := end_ st; matchedSlash := matchedSlash st;
                 preDotState := preDotState st |}
            else extname_loop path i st
          else
            let st1 :=
              if (end_ st =? -1)%Z then
                {| startDot := startDot st; startPart := startPart st;
                   end_ := Z.of_nat i + 1; matchedSlash := false;
                   preDotState := preDotState st |}
              else st in
            let st2 :=
              if Ascii.eqb code CHAR_DOT then
                if (startDot st1 =? -1)%Z then
                  {| startDot := Z.of_nat i; startPart := startPart st1;
                     end_ := end_ st1; matchedSlash := matchedSlash st1;
                     preDotState := preDotState st1 |}
                else if negb (preDotState st1 =? 1)%Z then
                  {| startDot := startDot st1; startPart := startPart st1;
                     end_ := end_ st1; matchedSlash := matchedSlash st1;
                     preDotState := 1 |}
                else st1
              else if negb (startDot st1 =? -1)%Z then
                {| startDot := startDot st1; startPart := startPart st1;
                   end_ := end_ st1; matchedSlash := matchedSlash st1;
                   preDotState := -1 |}
              else st1 in
            extname_loop path i st2
      end
  end.

Definition extname (path : string) : string :=
  let st := extname_loop path (String.length path)
              {| startDot := -1; startPart := 0; end_ := -1;
                 matchedSlash := true; preDotState := 0 |} in
  if ((startDot st =? -1) || (end_ st =? -1) || (preDotState st =? 0)
      || ((preDotState st =? 1) && (startDot st =? end_ st - 1)
          && (startDot st =? startPart st + 1)))%Z%bool
  then ""
  else Js.slice path (startDot st) (end_ st).

(** ** [basename] (without the optional suffix argument) *)

(** The loop state is [(start, end, matchedSlash)]; [n] is [i + 1]. *)
Fixpoint basename_loop (path : string) (n : nat) (end_ : Z) (matchedSlash : bool)
  : Z * Z :=
  match n with
  | O => (0%Z, end_)
  | S i =>
      match String.get i path with
      | None => (0%Z, end_)
      | Some code =>
          if isPathSeparator code then
            if negb matchedSlash then (Z.of_nat i + 1, end_)%Z
            else basename_loop path i end_ matchedSlash
          else if (end_ =? -1)%Z then
            basename_loop path i (Z.of_nat i + 1)%Z false
          else basename_loop path i end_ matchedSlash
      end
  end.

Definition basename (path : string) : string :=
  let '(start, e) := basename_loop path (String.length path) (-1) true in
  if (e =? -1)%Z then "" else Js.slice path start e.

(** ** [dirname] *)

(** The loop [for (i = path.length - 1; i >= 1; --i)]; [n] is [i], the
    result is [end]. *)
Fixpoint dirname_loop (path : string) (n : nat) (matchedSlash : bool) : Z :=
  match n with
  | O => (-1)%Z
  | S i' =>
      match String.get n path with
      | None => (-1)%Z
      | Some code =>
          if isPathSeparator code then
            if negb matchedSlash then Z.of_nat n
            else dirname_loop path i' matchedSlash
          else dirname_loop path i' false
      end
  end.

Definition hasRoot (path : string) : bool :=
  match path with
  | String c _ => isPathSeparator c
  | EmptyString => false
  end.

Definition dirname (path : string) : string :=
  if (String.length path =? 0)%nat then "."
  else
    let e := dirname_loop path (String.length path - 1) true in
    if (e =? -1)%Z then (if hasRoot path then "/" else ".")
    else if hasRoot path && (e =? 1)%Z then "//"
    else Js.slice path 0 e.

(** ** [normalizeString] *)

Record NormScan : Type := {
  res : string;
  lastSegmentLength : Z;
  lastSlash : Z;
  dots : Z;
  code : ascii
}.

Definition endsWithDotDot (r : string) : bool :=
  let n := String.length r in
  match String.get (n - 1) r, String.get (n - 2) r with
  | Some a, Some b => Ascii.eqb a CHAR_DOT && Ascii.eqb b CHAR_DOT
  | _, _ => false
  end.

(** One turn of the loop body at index [i] once [code] is set and is a
    separator.  The result is the state after the turn (the two [continue]
    exits and the fall-through all set [lastSlash = i; dots = 0]). *)
Definition normalize_separator (path : string) (allowAboveRoot : bool)
    (i : Z) (st : NormScan) : NormScan :=
  let r := res st in
  let reset (r' : string) (l : Z) :=
    {| res := r'; lastSegmentLength := l; lastSlash := i; dots := 0;
       code := code st |} in
  if ((lastSlash st =? i - 1) || (dots st =? 1))%Z then
    reset r (lastSegmentLength st)
  else if (dots st =? 2)%Z then
    if ((Js.length r <? 2) || negb (lastSegmentLength st =? 2)
        || negb (endsWithDotDot r))%Z then
      if (Js.length r >? 2)%Z then
        let lastSlashIndex := Js.lastIndexOf r CHAR_FORWARD_SLASH in
        if (lastSlashIndex =? -1)%Z then reset "" 0%Z
        else
          let r' := Js.slice r 0 lastSlashIndex in
          reset r' (Js.length r' - 1 - Js.lastIndexOf r' CHAR_FORWARD_SLASH)%Z
      else if negb (Js.length r =? 0)%Z then reset "" 0%Z
      else if allowAboveRoot then
        reset (if (Js.length r >? 0)%Z then r ++ "/.." else "..") 2%Z
      else reset r (lastSegmentLength st)
    else if allowAboveRoot then
      reset (if (Js.length r >? 0)%Z then r ++ "/.." else "..") 2%Z
    else reset r (lastSegmentLength st)
  else
    let seg := Js.slice path (lastSlash st + 1) i in
    reset (if (Js.length r >? 0)%Z then r ++ "/" ++ seg else seg)
          (i - lastSlash st - 1)%Z.

(** The loop [for (i = 0; i <= path.length; ++i)]; [fuel] counts the
    turns that are left. *)
Fixpoint normalizeString_loop (path : string) (allowAboveRoot : bool)
    (fuel : nat) (i : Z) (st : NormScan) : string :=
  match fuel with
  | O => res st
  | S fuel' =>
      let next (st' : NormScan) :=
        if isPathSeparator (code st') then
          normalizeString_loop path allowAboveRoot fuel' (i + 1)
            (normalize_separator path allowAboveRoot i st')
        else if Ascii.eqb (code st') CHAR_DOT && negb (dots st' =? -1)%Z then
          normalizeString_loop path allowAboveRoot fuel' (i + 1)
            {| res := res st'; lastSegmentLength := lastSegmentLength st';
               lastSlash := lastSlash st'; dots := dots st' + 1;
               code := code st' |}
        else
          normalizeString_loop path allowAboveRoot fuel' (i + 1)
            {| res := res st'; lastSegmentLength := lastSegmentLength st';
               lastSlash := lastSlash st'; dots := -1; code := code st' |} in
      let with_code (c : ascii) :=
        {| res := res st; lastSegmentLength := lastSegmentLength st;
           lastSlash := lastSlash st; dots := dots st; code := c |} in
      if (i <? Js.length path)%Z then
        match String.get (Z.to_nat i) path with
        | Some c => next (with_code c)
        | None => res st
        end
      else if isPathSeparator (code st) then res st
      else next (with_code CHAR_FORWARD_SLASH)
  end.

Definition normalizeString (path : string) (allowAboveRoot : bool) : string :=
  normalizeString_loop path allowAboveRoot (S (String.length path)) 0
    {| res := ""; lastSegmentLength := 0; lastSlash := -1; dots := 0;
       code := Ascii.zero |}.

(** ** [normalize] *)

Definition endsWithSlash (path : string) : bool :=
  match String.get (String.length path - 1) path with
  | Some c => isPathSeparator c
  | None => false
  end.

Definition normalize (path : string) : string :=
  if (String.length path =? 0)%nat then "."
  else
    let isAbsolute := hasRoot path in
    let trailingSeparator := endsWithSlash path in
    let p := normalizeString path (negb isAbsolute) in
    if (String.length p =? 0)%nat then
      if isAbsolute then "/"
      else if trailingSeparator then "./" else "."
    else
      let p' := if trailingSeparator then p ++ "/" else p in
      if isAbsolute then "/" ++ p' else p'.

(** ** [resolve] *)

(** The loop [for (i = args.length - 1; i >= -1 && !resolvedAbsolute; i--)]
    over the arguments from the right, the working directory coming last. *)
Fixpoint resolve_loop (rev_args : list string) (resolvedPath : string)
  : string * bool :=
  match rev_args with
  | [] => (resolvedPath, false)
  | p :: rest =>
      if (String.length p =? 0)%nat then resolve_loop rest resolvedPath
      else
        let resolvedPath' := p ++ "/" ++ resolvedPath in
        if hasRoot p then (resolvedPath', true)
        else resolve_loop rest resolvedPath'
  end.

Definition resolve (cwd : string) (args : list string) : string :=
  let '(resolvedPath, resolvedAbsolute) :=
    resolve_loop (rev (cwd :: args)) "" in
  let p := normalizeString resolvedPath (negb resolvedAbsolute) in
  if resolvedAbsolute then "/" ++ p
  else if (0 <? String.length p)%nat then p else ".".

Definition platform (cwd : string) : Platform := {|
  path_extname := extname;
  path_basename := basename;
  path_dirname := dirname;
  path_resolve := resolve cwd;
  path_normalize := normalize;
  process_cwd := cwd
|}.

End Posix.

(* ================================================================== *)
(** * JavaScript values and objects *)
(* ================================================================== *)

(** The type of rollup's [external] function once [transformFile] has closed
    it over the input file: [(id, importer, isResolved) => boolean | null |
    void]; [None] stands for [null] and [undefined]. *)
Definition ExternalFn : Type := string -> option string -> option bool -> option bool.

(** Function values: the classifier, which the embedding can call, and the
    caller's other functions (plugin hooks), known by a label only. *)
Inductive fn : Type :=
| FnExternal (f : ExternalFn)
| FnOpaque (label : string).

#[local] Set Warnings "-register-all".

(** The values configuration objects are made of.  An object is the list of
    its own properties in insertion order, which is the order of
    [Object.keys] and of [for ... in]. *)
Inductive value : Type :=
| VUndefined
| VNull
| VBool (b : bool)
| VNum (n : Z)
| VStr (s : string)
| VRegExp (source : string)
| VFun (f : fn)
| VArr (items : list value)
| VObj (props : list (string * value)).

Definition obj : Type := list (string * value).

(** [o[k]] for an own property. *)
Fixpoint obj_get (k : string) (o : obj) : option value :=
  match o with
  | [] => None
  | (k', v) :: o' => if String.eqb k k' then Some v else obj_get k o'
  end.

(** [o[k] = v]: an existing property keeps its place, a new one comes last. *)
Fixpoint obj_set (k : string) (v : value) (o : obj) : obj :=
  match o with
  | [] => [(k, v)]
  | (k', v') :: o' =>
      if String.eqb k k' then (k', v) :: o' else (k', v') :: obj_set k v o'
  end.

Definition keys (o : obj) : list string := map fst o.

(** The members of an object literal [{ k: v, ...o }], evaluated from left to
    right; spreading [undefined] adds nothing. *)
Inductive member : Type :=
| Field (k : string) (v : value)
| Spread (o : option obj).

Definition add_member (acc : obj) (m : member) : obj :=
  match m with
  | Field k v => obj_set k v acc
  | Spread None => acc
  | Spread (Some o) => fold_left (fun acc' kv => obj_set (fst kv) (snd kv) acc') o acc
  end.

Definition object (ms : list member) : obj := fold_left add_member ms [].

Definition isNullish (v : value) : bool :=
  match v with
  | VUndefined | VNull => true
  | _ => false
  end.

Definition isArray (v : value) : bool :=
  match v with
  | VArr _ => true
  | _ => false
  end.

(* ================================================================== *)
(** * vite's [mergeConfig] *)
(* ================================================================== *)

(** [mergeConfig] is imported from vite.  The model follows vite's
    [mergeConfigRecursively]: a nullish override is skipped; an override of
    a key that is absent or nullish is stored; when either side is an array
    the two are concatenated ([arraify] wraps a non-array); two plain
    objects are merged recursively; anything else is replaced by the
    override.  vite treats the keys [alias], [assetsInclude], [noExternal]
    and the worker's [plugins] apart, and only where the defaults already
    hold a value under them: the defaults built by [createBuildConfig] below
    hold none of these keys. *)
Module Vite.

Definition arraify (v : value) : list value :=
  match v with
  | VArr l => l
  | _ => [v]
  end.

(** The loop [for (const key in overrides)] over [merged], which starts
    as a copy of the defaults; [merge] is what is stored when the existing
    value and the override are both set. *)
Definition mergeProps (merge : value -> value -> value) : obj -> obj -> obj :=
  fix loop (merged overrides : obj) {struct overrides} : obj :=
    match overrides with
    | [] => merged
    | (key, v) :: rest =>
        loop (if isNullish v then merged
              else match obj_get key merged with
                   | None => obj_set key v merged
                   | Some existing =>
                       if isNullish existing then obj_set key v merged
                       else obj_set key (merge existing v) merged
                   end)
             rest
    end.

Fixpoint mergeValue (existing v : value) {struct v} : value :=
  if isArray existing || isArray v then
    VArr (arraify existing ++ arraify v)%list
  else
    match existing, v with
    | VObj e, VObj o => VObj (mergeProps mergeValue e o)
    | _, _ => v
    end.

Definition mergeConfigRecursively (defaults overrides : obj) : obj :=
  mergeProps mergeValue defaults overrides.

(** [mergeConfig(defaults, overrides)]; [for ... in undefined] runs no
    turn. *)
Definition mergeConfig (defaults : obj) (overrides : option obj) : obj :=
  match overrides with
  | None => defaults
  | Some o => mergeConfigRecursively defaults o
  end.

End Vite.

(* ================================================================== *)
(** * Options *)
(* ================================================================== *)

(** [Format]: a bare tag or a [{format, outDir}] pair. *)
Inductive Format : Type :=
| FormatTag (format : string)
| FormatSpec (format outDir : string).

(** An option given as a value or as a function of a path. *)
Inductive ValueOrFn (A : Type) : Type :=
| Plain (a : A)
| Computed (f : string -> A).
Arguments Plain {A} a.
Arguments Computed {A} f.

(** [typeof x === 'function' ? x(arg) : x], for an optional [x]. *)
Definition resolveOption {A : Type} (x : option (ValueOrFn A)) (arg : string)
  : option A :=
  match x with
  | None => None
  | Some (Plain a) => Some a
  | Some (Computed f) => Some (f arg)
  end.

(** [rollupOptionsExternal]: the caller's function of [(source, importer,
    isResolved, inputFilePath)], or a string, a RegExp or an array of them. *)
Inductive RollupOptionsExternal : Type :=
| ExternalFunction (f : string -> option string -> option bool -> string -> option bool)
| ExternalPatterns (v : value).

(** [BuildFilesOptions].  The three callbacks are the caller's: the
    embedding records whether each is supplied and, in the trace, each call
    made to it; a callback is taken to return normally.  [esOutputDir] and [commonJsOutputDir] are declared by the
    interface and read nowhere in this file. *)
Record BuildFilesOptions : Type := {
  inputFolder : option string;
  formats : option (list Format);
  watch : option value;
  extensions : option (list string);
  ignoreInputs : option (list string);
  buildOptions : option (ValueOrFn obj);
  rollupOptionsOutput : option (ValueOrFn obj);
  rollupOptionsExternal : option RollupOptionsExternal;
  viteConfig : option obj;
  singleFileBuildSuccessCallback : bool;
  startBuild : bool;
  endBuild : bool;
  pluginHooks : option obj
}.

(* ================================================================== *)
(** * The output path and the external classifier *)
(* ================================================================== *)

Definition isVueTempFile (filePath : string) : bool :=
  Js.includes filePath "?vue" && Js.includes filePath "lang.".

Definition isAsset (id : string) : bool :=
  Js.includes id ".sass" || Js.includes id ".scss" || Js.includes id ".less"
  || Js.includes id ".css" || Js.includes id ".svg".

Definition isJson (id : string) : bool := Js.includes id ".json".

Section PerFile.

Context {P : Platform}.

(** [transformFilePath], lines 38-45. *)
Definition transformFilePath (fileRelativePath : string) : string :=
  let extname := path_extname fileRelativePath in
  if existsb (String.eqb extname) [".vue"; ".svelte"] then
    Js.replace_first_segment fileRelativePath ++ ".js"
  else
    Js.replace extname ".js" (Js.replace_first_segment fileRelativePath).

(** The arrow function of lines 52-82, closed over [rollupOptionsExternal]
    (a function or [undefined] there) and [fileRelativePath]. *)
Definition externalClassifier
    (callerExternal : option (string -> option string -> option bool -> string -> option bool))
    (fileRelativePath : string) : ExternalFn :=
  fun id importer isResolved =>
    match callerExternal with
    | Some f => f id importer isResolved fileRelativePath
    | None =>
        if isJson id || isAsset id || isVueTempFile id
           || String.eqb (path_normalize id)
                         (path_resolve [process_cwd; fileRelativePath])
        then Some false
        else Some true
    end.

(** [lastRollupOptionsExternal], lines 49-83. *)
Definition lastRollupOptionsExternal
    (rollupOptionsExternal : option RollupOptionsExternal)
    (fileRelativePath : string) : value :=
  match rollupOptionsExternal with
  | Some (ExternalPatterns v) => v
  | Some (ExternalFunction f) =>
      VFun (FnExternal (externalClassifier (Some f) fileRelativePath))
  | None => VFun (FnExternal (externalClassifier None fileRelativePath))
  end.

End PerFile.

(* ================================================================== *)
(** * Build units and the synthesized configuration *)
(* ================================================================== *)

(** The object form of [Format]. *)
Record FormatObject : Type := {
  format : string;
  outDir : string
}.

(** [CreateBuildConfigOptions] (its [format] field is [outputFormat] here,
    [format] being taken by [FormatObject]). *)
Record CreateBuildConfigOptions : Type := {
  outputDir : string;
  outputFormat : string
}.

(** Lines 166-168: [if (typeof format === 'string') format = { format,
    outDir: format }]. *)
Definition normalizeFormat (f : Format) : FormatObject :=
  match f with
  | FormatTag tag => {| format := tag; outDir := tag |}
  | FormatSpec fmt dir => {| format := fmt; outDir := dir |}
  end.

(** Line 170: the argument of [lastBuild]. *)
Definition buildUnit (f : Format) : CreateBuildConfigOptions :=
  let fo := normalizeFormat f in
  {| outputDir := outDir fo; outputFormat := format fo |}.

(** [formats = ['cjs', 'es']]. *)
Definition formatsOf (options : BuildFilesOptions) : list Format :=
  match formats options with
  | Some fs => fs
  | None => [FormatTag "cjs"; FormatTag "es"]
  end.

(** The build units one file is dispatched as: one per entry of [formats],
    in order ([.filter(Boolean)] keeps every promise). *)
Definition buildUnits (options : BuildFilesOptions) : list CreateBuildConfigOptions :=
  map buildUnit (formatsOf options).

(** Line 154: the path written on the bundler's output records. *)
Definition outputFilePathOf (unit_ : CreateBuildConfigOptions)
    (transformFilePath_ : string) : string :=
  outputDir unit_ ++ "/" ++ transformFilePath_.

(** Lines 91-96: the function-valued entries of [pluginHooks]. *)
Definition lastPluginHooks (hooks : obj) : obj :=
  fold_left
    (fun acc cur =>
       match obj_get cur hooks with
       | Some (VFun f) => obj_set cur (VFun f) acc
       | _ => acc
       end)
    (keys hooks) [].

Section Synthesis.

Context {P : Platform}.
Variable options : BuildFilesOptions.
Variable fileRelativePath : string.

Definition lastBuildOptions : option obj :=
  resolveOption (buildOptions options) fileRelativePath.

Definition lastRollupOptionsOutput : option obj :=
  resolveOption (rollupOptionsOutput options) (transformFilePath fileRelativePath).

(** Lines 106-114: the one entry of [rollupOptions.output]. *)
Definition outputEntry (o : CreateBuildConfigOptions) : obj :=
  object
    [ Field "entryFileNames" (VStr (path_basename (transformFilePath fileRelativePath)));
      Field "format" (VStr (outputFormat o));
      Field "indent" (VBool false);
      Field "assetFileNames" (VStr "[name].[ext]");
      Field "inlineDynamicImports" (VBool true);
      Spread lastRollupOptionsOutput;
      Field "dir"
        (VStr (path_dirname
                 (path_resolve [outputDir o; transformFilePath fileRelativePath]))) ].

(** Lines 99-125: the first argument of [mergeConfig]. *)
Definition defaultBuildConfig (o : CreateBuildConfigOptions) : obj :=
  object
    [ Field "assetsDir" (VStr "./");
      Field "cssCodeSplit" (VBool true);
      Field "emptyOutDir" (VBool false);
      Field "rollupOptions"
        (VObj (object
           [ Field "external"
               (lastRollupOptionsExternal (rollupOptionsExternal options)
                  fileRelativePath);
             Field "output" (VArr [VObj (outputEntry o)]) ]));
      Field "lib"
        (VObj (object
           [ Field "formats" (VArr [VStr "cjs"]);
             Field "entry" (VStr (path_resolve [process_cwd; fileRelativePath]));
             Field "name" (VStr "noop") ]));
      Field "minify" (VBool false);
      Field "watch" (match watch options with Some w => w | None => VNull end) ].

(** Lines 98-127. *)
Definition buildConfig (o : CreateBuildConfigOptions) : obj :=
  Vite.mergeConfig (defaultBuildConfig o) lastBuildOptions.

(** [viteConfig?.plugins ? viteConfig.plugins : []], for a [plugins] that
    is an array when set, as [UserConfig] has it. *)
Definition callerPlugins : list value :=
  match viteConfig options with
  | Some vc =>
      match obj_get "plugins" vc with
      | Some (VArr ps) => ps
      | _ => []
      end
  | None => []
  end.

(** [createBuildConfig], lines 89-144. *)
Definition createBuildConfig (o : CreateBuildConfigOptions) : obj :=
  object
    [ Spread (viteConfig options);
      Field "plugins"
        (VArr (VObj (object
                 [ Field "name" (VStr "vite:build-file-transform");
                   Field "enforce" (VStr "pre");
                   Spread (Some (lastPluginHooks
                                   (match pluginHooks options with
                                    | Some h => h
                                    | None => []
                                    end))) ])
               :: callerPlugins));
      Field "mode" (VStr "production");
      Field "configFile" (VBool false);
      Field "logLevel" (VStr "error");
      Field "build" (VObj (buildConfig o)) ].

End Synthesis.

(** The [dir] of every entry of [build.rollupOptions.output] of a
    configuration, as the bundler reads them; [None] for an entry without
    [dir], and no entry at all when the path is not there. *)
Definition dirOf (entry : value) : option value :=
  match entry with
  | VObj e => obj_get "dir" e
  | _ => None
  end.

Definition outputsOfBuild (build_ : obj) : list value :=
  match obj_get "rollupOptions" build_ with
  | Some (VObj ro) =>
      match obj_get "output" ro with
      | Some (VArr outs) => outs
      | Some VUndefined | Some VNull | None => []
      | Some single => [single]
      end
  | _ => []
  end.

Definition outputDirs (config : obj) : list (option value) :=
  match obj_get "build" config with
  | Some (VObj b) => map dirOf (outputsOfBuild b)
  | _ => []
  end.

(* ================================================================== *)
(** * Process state, promises and the bundler *)
(* ================================================================== *)

(** What the batch does to the outside: the calls to the caller's three
    callbacks and the line written by [console.error]. *)
Inductive Event : Type :=
| StartBuild (totalFilesCount : nat)
| SingleFileBuildSuccess (count : nat) (file : string)
| EndBuild (count : nat)
| ConsoleErrorRed (message : string).

(** The module-level [let incrementCount] and the trace of events. *)
Record ProcessState : Type := {
  incrementCount : nat;
  trace : list Event
}.

Definition M (A : Type) : Type := ProcessState -> A * ProcessState.

Definition ret {A : Type} (a : A) : M A := fun s => (a, s).

Definition bind {A B : Type} (m : M A) (k : A -> M B) : M B :=
  fun s => let (a, s') := m s in k a s'.

Declare Scope m_scope.
Delimit Scope m_scope with M.
Notation "x <- m ;; k" := (bind m (fun x => k))
  (at level 61, m at next level, right associativity) : m_scope.
Notation "m ;; k" := (bind m (fun _ => k))
  (at level 61, right associativity) : m_scope.

Definition getCount : M nat := fun s => (incrementCount s, s).

Definition setCount (n : nat) : M unit :=
  fun s => (tt, {| incrementCount := n; trace := trace s |}).

Definition emit (e : Event) : M unit :=
  fun s => (tt, {| incrementCount := incrementCount s;
                   trace := (trace s ++ [e])%list |}).

(** [callback?.(...)] and [if (flag) ...]. *)
Definition when (b : bool) (m : M unit) : M unit :=
  if b then m else ret tt.

(** A settled promise. *)
Inductive Outcome (A : Type) : Type :=
| Fulfilled (a : A)
| Rejected.
Arguments Fulfilled {A} a.
Arguments Rejected {A}.

Definition isRejected {A : Type} (r : Outcome A) : bool :=
  match r with
  | Rejected => true
  | Fulfilled _ => false
  end.

(** [Promise.all]: fulfilled with all the values when every promise is
    fulfilled, rejected as soon as one is. *)
Fixpoint promiseAll {A : Type} (ps : list (Outcome A)) : Outcome (list A) :=
  match ps with
  | [] => Fulfilled []
  | Rejected :: _ => Rejected
  | Fulfilled a :: ps' =>
      match promiseAll ps' with
      | Fulfilled l => Fulfilled (a :: l)
      | Rejected => Rejected
      end
  end.

(** What vite's [build] resolves to: [RollupOutput | RollupOutput[] |
    RollupWatcher].  A [RollupOutput] holds the array [output] of chunks
    and assets (so [Array.isArray(o.output)] holds of it); of a record the
    embedding keeps its [fileName] and the [outputFilePath] the driver
    writes on it. *)
Record OutputRecord : Type := {
  fileName : string;
  outputFilePath : option string
}.

Record RollupOutput : Type := {
  output : list OutputRecord
}.

Inductive BuildOutput : Type :=
| OutputArray (os : list RollupOutput)
| OutputSingle (o : RollupOutput)
| OutputWatcher.

(** Lines 148-158. *)
Definition annotate (path : string) (out : BuildOutput) : BuildOutput :=
  match out with
  | OutputArray os =>
      OutputArray
        (map (fun o =>
                {| output :=
                     map (fun oi => {| fileName := fileName oi;
                                       outputFilePath := Some path |})
                         (output o) |})
             os)
  | other => other
  end.

(* ================================================================== *)
(** * The single-file driver and the batch orchestrator *)
(* ================================================================== *)

Definition partialErrorMessage : string := "部分文件构建出错".

Definition defaultExtensions : list string :=
  ["ts"; "tsx"; "js"; "jsx"; "vue"; "svelte"].

Definition defaultIgnore : list string :=
  ["**/*.spec.*"; "**/*.test.*"; "**/*.d.ts"; "**/__tests__/**"].

(** Line 286: the one glob pattern handed to [fg.sync]. *)
Definition globPattern (options : BuildFilesOptions) : string :=
  let inputFolder_ :=
    match inputFolder options with Some d => d | None => "src" end in
  let extensions_ :=
    match extensions options with Some e => e | None => defaultExtensions end in
  inputFolder_ ++ "/**/*.{" ++ String.concat "," extensions_ ++ "}".

(** [ignoreInputs || [...]]: an array, even an empty one, is truthy. *)
Definition ignoreOf (options : BuildFilesOptions) : list string :=
  match ignoreInputs options with Some i => i | None => defaultIgnore end.

(** The result of [runInTaskPool]. *)
Record PoolResult : Type := {
  hasPartialError : bool
}.

Section Batch.

Context {P : Platform}.

(** The bundler: vite's [build], resolving or rejecting for a configuration. *)
Variable build : obj -> Outcome BuildOutput.

(** The glob matcher: [fg.sync(patterns, { ignore })]. *)
Variable fg_sync : list string -> list string -> list string.

(** The order in which the pool's units finish.  Units are started in the
    order of the list, up to [limit] at a time; which one finishes first is
    up to the bundler. *)
Variable completionOrder : list string -> list string.

(** [lastBuild], lines 146-161. *)
Definition lastBuild (options : BuildFilesOptions) (fileRelativePath : string)
    (o : CreateBuildConfigOptions) : Outcome BuildOutput :=
  match build (createBuildConfig options fileRelativePath o) with
  | Rejected => Rejected
  | Fulfilled out =>
      Fulfilled (annotate (outputFilePathOf o (transformFilePath fileRelativePath)) out)
  end.

(** Lines 164-172: the promises handed to [Promise.all]. *)
Definition formatBuilds (options : BuildFilesOptions) (fileRelativePath : string)
  : list (Outcome BuildOutput) :=
  map (lastBuild options fileRelativePath) (buildUnits options).

(** [transformFile], lines 24-179.  The state is only touched after the
    [await], in one run without suspension: the increment and the callback. *)
Definition transformFile (fileRelativePath : string) (options : BuildFilesOptions)
  : M (Outcome string) :=
  match promiseAll (formatBuilds options fileRelativePath) with
  | Rejected => ret Rejected
  | Fulfilled _ =>
      (n <- getCount ;;
       setCount (n + 1) ;;
       n' <- getCount ;;
       when (singleFileBuildSuccessCallback options)
            (emit (SingleFileBuildSuccess n' fileRelativePath)) ;;
       ret (Fulfilled fileRelativePath))%M
  end.

(** The units of a pool run one after the other, as they finish; the result
    tells whether one of them was rejected. *)
Fixpoint runWorkers {B : Type} (worker : string -> M (Outcome B))
    (items : list string) : M bool :=
  match items with
  | [] => ret false
  | item :: rest =>
      (r <- worker item ;;
       failed <- runWorkers worker rest ;;
       ret (isRejected r || failed))%M
  end.

(** Modelled from the spec: [run-in-task-pool] is an outside package, known
    here by its contract only: "given a list of items, a per-item async
    worker, and a concurrency limit, runs workers respecting the limit and
    reports per-item success/failure without the whole run throwing", the
    pool "records" a failing unit "and continues others", and raises the
    "partial-failure flag" "if any unit failed".  The limit bounds how many
    units are in flight and so which completion orders can occur; the
    worker's effects all happen when its unit finishes. *)
Definition runInTaskPool {B : Type} (items : list string)
    (worker : string -> M (Outcome B)) (limit : nat) : M PoolResult :=
  (failed <- runWorkers worker (completionOrder items) ;;
   ret {| hasPartialError := failed |})%M.

(** Lines 286-288. *)
Definition srcFilePaths (options : BuildFilesOptions) : list string :=
  fg_sync [globPattern options] (ignoreOf options).

(** [buildFiles], lines 275-308.  [restOptions] is [options] without the
    fields [transformFile] does not read. *)
Definition buildFiles (options : BuildFilesOptions) : M unit :=
  (setCount 0 ;;
   when (startBuild options) (emit (StartBuild (List.length (srcFilePaths options)))) ;;
   result <- runInTaskPool (srcFilePaths options)
               (fun fileRelativePath => transformFile fileRelativePath options) 20 ;;
   when (hasPartialError result) (emit (ConsoleErrorRed partialErrorMessage)) ;;
   n <- getCount ;;
   when (endBuild options) (emit (EndBuild n)) ;;
   setCount 0)%M.

(** A file's unit succeeds when every one of its format builds resolves. *)
Definition fileSucceeds (options : BuildFilesOptions) (fileRelativePath : string)
  : bool :=
  negb (isRejected (promiseAll (formatBuilds options fileRelativePath))).

End Batch.

(* ================================================================== *)
(** * Notions the statements are written with *)
(* ================================================================== *)

(** The first segment of a path: what [[^/]*] takes in front of the first
    slash. *)
Fixpoint rootSegment (s : string) : string :=
  match s with
  | EmptyString => EmptyString
  | String c s' => if Ascii.eqb c "/" then EmptyString else String c (rootSegment s')
  end.

Definition assetSuffixes : list string :=
  [".css"; ".scss"; ".less"; ".sass"; ".svg"; ".json"].

(** [dirname(resolve(outDir, transformFilePath))]. *)
Definition computedDir {P : Platform} (fileRelativePath : string)
    (o : CreateBuildConfigOptions) : value :=
  VStr (path_dirname
          (path_resolve [outputDir o; transformFilePath fileRelativePath])).

(** The overrides of [buildOptions] that say nothing of
    [rollupOptions.output]: every [rollupOptions] among them is nullish or
    an object whose [output] is nullish or absent. *)
Definition keepsOutput (kv : string * value) : bool :=
  negb (String.eqb (fst kv) "rollupOptions")
  || match snd kv with
     | VUndefined | VNull => true
     | VObj ro =>
         forallb (fun kv' => negb (String.eqb (fst kv') "output")
                             || isNullish (snd kv')) ro
     | _ => false
     end.

Definition leavesOutputAlone (overrides : option obj) : bool :=
  match overrides with
  | None => true
  | Some ov => forallb keepsOutput ov
  end.

(** The success events of the files [l], counted from [n]. *)
Fixpoint numbered (n : nat) (l : list string) : list Event :=
  match l with
  | [] => []
  | f :: l' => SingleFileBuildSuccess (n + 1) f :: numbered (n + 1) l'
  end.

(** What one batch writes on the trace: the batch-start call, the success
    calls in the order the files finish, the diagnostic line, the batch-end
    call. *)
Definition batchEvents {P : Platform} (build : obj -> Outcome BuildOutput)
    (fg_sync : list string -> list string -> list string)
    (completionOrder : list string -> list string)
    (options : BuildFilesOptions) : list Event :=
  let files := srcFilePaths fg_sync options in
  let ok := fileSucceeds build options in
  let done := filter ok (completionOrder files) in
  ((if startBuild options then [StartBuild (List.length files)] else [])
   ++ (if singleFileBuildSuccessCallback options then numbered 0 done else [])
   ++ (if existsb (fun f => negb (ok f)) (completionOrder files)
       then [ConsoleErrorRed partialErrorMessage] else [])
   ++ (if endBuild options then [EndBuild (List.length done)] else []))%list.

(* ================================================================== *)
(** * Scenarios *)
(* ================================================================== *)

Module Scenario.

(** [formats: ["cjs", {format: "es", outDir: "esm"}]]. *)
Definition options : BuildFilesOptions := {|
  inputFolder := None;
  formats := Some [FormatTag "cjs"; FormatSpec "es" "esm"];
  watch := None; extensions := None; ignoreInputs := None;
  buildOptions := None; rollupOptionsOutput := None;
  rollupOptionsExternal := None; viteConfig := None;
  singleFileBuildSuccessCallback := false; startBuild := false;
  endBuild := false; pluginHooks := None
|}.

Definition file : string := "src/util/math.ts".

Definition cjsUnit : CreateBuildConfigOptions :=
  {| outputDir := "cjs"; outputFormat := "cjs" |}.

Definition esUnit : CreateBuildConfigOptions :=
  {| outputDir := "esm"; outputFormat := "es" |}.

End Scenario.

Module Redirect.

(** [buildOptions: { rollupOptions: { output: [{ dir: 'elsewhere' }] } }]. *)
Definition options : BuildFilesOptions := {|
  inputFolder := None; formats := None; watch := None; extensions := None;
  ignoreInputs := None;
  buildOptions :=
    Some (Plain [("rollupOptions",
                  VObj [("output", VArr [VObj [("dir", VStr "elsewhere")]])])]);
  rollupOptionsOutput := None; rollupOptionsExternal := None;
  viteConfig := None; singleFileBuildSuccessCallback := false;
  startBuild := false; endBuild := false; pluginHooks := None
|}.

Definition unit_ : CreateBuildConfigOptions :=
  {| outputDir := "lib"; outputFormat := "cjs" |}.

End Redirect.

Module Override.

(** A caller that sets [dir] through [rollupOptionsOutput] (as a function of
    the output path) and other build options through [buildOptions]. *)
Definition options : BuildFilesOptions := {|
  inputFolder := None; formats := None; watch := None; extensions := None;
  ignoreInputs := None;
  buildOptions :=
    Some (Plain [("minify", VBool true);
                 ("rollupOptions", VObj [("treeshake", VBool false)])]);
  rollupOptionsOutput :=
    Some (Computed (fun outputFilePath_ =>
                      [("dir", VStr ("hijack/" ++ outputFilePath_));
                       ("sourcemap", VBool true)]));
  rollupOptionsExternal := None;
  viteConfig := None; singleFileBuildSuccessCallback := false;
  startBuild := false; endBuild := false; pluginHooks := None
|}.

Definition unit_ : CreateBuildConfigOptions :=
  {| outputDir := "es"; outputFormat := "es" |}.

End Override.

Module ThreeFiles.

Definition platform : Platform := Posix.platform "/home/user/project".

Definition glob : list string -> list string -> list string :=
  fun _ _ => ["src/a.ts"; "src/b.ts"; "src/c.ts"].

(** [build.lib.entry] of a configuration: the absolute path of the input. *)
Definition entryOf (config : obj) : option value :=
  match obj_get "build" config with
  | Some (VObj b) =>
      match obj_get "lib" b with
      | Some (VObj l) => obj_get "entry" l
      | _ => None
      end
  | _ => None
  end.

(** A bundler that throws on [src/b.ts] and emits one chunk otherwise. *)
Definition build (config : obj) : Outcome BuildOutput :=
  match entryOf config with
  | Some (VStr entry) =>
      if String.eqb entry "/home/user/project/src/b.ts" then Rejected
      else Fulfilled
             (OutputArray
                [{| output := [{| fileName := "index.js";
                                  outputFilePath := None |}] |}])
  | _ => Rejected
  end.

(** The last unit started finishes first. *)
Definition order : list string -> list string := @rev string.

Definition options : BuildFilesOptions := {|
  inputFolder := None; formats := None; watch := None; extensions := None;
  ignoreInputs := None; buildOptions := None; rollupOptionsOutput := None;
  rollupOptionsExternal := None; viteConfig := None;
  singleFileBuildSuccessCallback := true; startBuild := true;
  endBuild := true; pluginHooks := None
|}.

Definition start : ProcessState := {| incrementCount := 0; trace := [] |}.

End ThreeFiles.

Module TwoBatches.

Definition platform : Platform := Posix.platform "/home/user/project".

Definition build (config : obj) : Outcome BuildOutput :=
  Fulfilled (OutputArray []).

(** The glob finds five files under [src] and three under [lib-src]. *)
Definition glob (patterns ignore : list string) : list string :=
  match patterns with
  | [pattern] =>
      if Js.startsWith "src/" pattern
      then ["src/a.ts"; "src/b.ts"; "src/c.ts"; "src/d.ts"; "src/e.ts"]
      else ["lib-src/x.ts"; "lib-src/y.ts"; "lib-src/z.ts"]
  | _ => []
  end.

Definition order : list string -> list string := fun l => l.

Definition options (folder : string) : BuildFilesOptions := {|
  inputFolder := Some folder; formats := None; watch := None;
  extensions := None; ignoreInputs := None; buildOptions := None;
  rollupOptionsOutput := None; rollupOptionsExternal := None;
  viteConfig := None; singleFileBuildSuccessCallback := false;
  startBuild := false; endBuild := true; pluginHooks := None
|}.

(** A counter left at 7 by whatever ran before. *)
Definition start : ProcessState := {| incrementCount := 7; trace := [] |}.



End TwoBatches.

Module Hooked.

(** A caller with plugin hooks, one entry of which is no function, and a
    [viteConfig] that sets [mode], [plugins] and [root]. *)
Definition hooks : obj :=
  [ ("buildStart", VFun (FnOpaque "buildStart"));
    ("apply", VStr "build");
    ("transform", VFun (FnOpaque "transform")) ].

Definition options : BuildFilesOptions := {|
  inputFolder := None; formats := None; watch := None; extensions := None;
  ignoreInputs := None; buildOptions := None; rollupOptionsOutput := None;
  rollupOptionsExternal := None;
  viteConfig :=
    Some [ ("mode", VStr "development");
           ("plugins", VArr [VObj [("name", VStr "caller-plugin")]]);
           ("root", VStr "/srv") ];
  singleFileBuildSuccessCallback := false; startBuild := false;
  endBuild := false;
  pluginHooks := Some hooks
|}.

End Hooked.

Module Umd.

(** [rollupOptionsOutput: { format: 'umd', name: 'Lib' }]. *)
Definition output_ : obj := [("format", VStr "umd"); ("name", VStr "Lib")].

Definition options : BuildFilesOptions := {|
  inputFolder := None; formats := None; watch := None; extensions := None;
  ignoreInputs := None; buildOptions := None;
  rollupOptionsOutput := Some (Plain output_);
  rollupOptionsExternal := None; viteConfig := None;
  singleFileBuildSuccessCallback := false; startBuild := false;
  endBuild := false; pluginHooks := None
|}.

End Umd.

Module NoFormats.

(** [formats: []]. *)
Definition options : BuildFilesOptions := {|
  inputFolder := None; formats := Some []; watch := None; extensions := None;
  ignoreInputs := None; buildOptions := None; rollupOptionsOutput := None;
  rollupOptionsExternal := None; viteConfig := None;
  singleFileBuildSuccessCallback := true; startBuild := true;
  endBuild := true; pluginHooks := None
|}.

(** A bundler that fails whatever it is given. *)
Definition build (config : obj) : Outcome BuildOutput := Rejected.

End NoFormats.

Module TwoChunks.

(** A bundler that emits an entry chunk and a stylesheet. *)
Definition build (config : obj) : Outcome BuildOutput :=
  Fulfilled
    (OutputArray
       [{| output := [ {| fileName := "math.js"; outputFilePath := None |};
                       {| fileName := "math.css"; outputFilePath := None |} ] |}]).

End TwoChunks.

(* ================================================================== *)
(** * Properties of the string primitives *)
(* ================================================================== *)

Lemma startsWith_cons (a b : ascii) (s1 s2 : string) :
  Js.startsWith (String a s1) (String b s2)
  = if ascii_dec a b then Js.startsWith s1 s2 else false.
Proof. reflexivity. Qed.

Lemma startsWith_refl (s : string) : Js.startsWith s s = true.
Proof.
  induction s as [|c s IH]; [reflexivity|].
  rewrite startsWith_cons.
  destruct (ascii_dec c c) as [_|ne]; [exact IH | now elim ne].
Qed.

Lemma startsWith_empty (s : string) : Js.startsWith "" s = true.
Proof. destruct s; reflexivity. Qed.

Lemma startsWith_slash (c : ascii) (s : string) :
  Js.startsWith "/" (String c s) = Ascii.eqb c "/".
Proof.
  rewrite startsWith_cons, startsWith_empty.
  destruct (ascii_dec "/" c) as [e|ne].
  - subst c. reflexivity.
  - symmetry. apply Ascii.eqb_neq. congruence.
Qed.

Lemma includes_eq (s pat : string) :
  Js.includes s pat
  = if Js.startsWith pat s then true
    else match s with
         | EmptyString => false
         | String _ s' => Js.includes s' pat
         end.
Proof. destruct s; reflexivity. Qed.

Lemma includes_slash_cons (c : ascii) (s : string) :
  Js.includes (String c s) "/" = Ascii.eqb c "/" || Js.includes s "/".
Proof.
  rewrite includes_eq, startsWith_slash. now destruct (Ascii.eqb c "/").
Qed.

(** A string ending in [suffix] includes it. *)
Lemma includes_suffix (pre suffix : string) :
  Js.includes (pre ++ suffix) suffix = true.
Proof.
  induction pre as [|c pre IH].
  - change ("" ++ suffix) with suffix.
    now rewrite includes_eq, startsWith_refl.
  - rewrite includes_eq.
    destruct (Js.startsWith suffix (String c pre ++ suffix)); [reflexivity|].
    exact IH.
Qed.

(** Replacing the empty pattern inserts at the start. *)
Lemma replace_empty_pattern (rep s : string) : Js.replace "" rep s = rep ++ s.
Proof. destruct s; reflexivity. Qed.

(** The regular expression finds its match at the start as soon as the
    string holds a slash, and removes the first segment with its slash. *)
Lemma match_segment_here_root (root rest : string) :
  Js.includes root "/" = false ->
  Js.match_segment_here (root ++ "/" ++ rest) = Some rest.
Proof.
  induction root as [|c root IH]; intros H.
  - reflexivity.
  - rewrite includes_slash_cons in H.
    apply orb_false_iff in H as [Hc Hr].
    cbn [append Js.match_segment_here]. rewrite Hc. apply IH, Hr.
Qed.

Lemma match_segment_here_none (s : string) :
  Js.includes s "/" = false -> Js.match_segment_here s = None.
Proof.
  induction s as [|c s IH]; intros H; [reflexivity|].
  rewrite includes_slash_cons in H.
  apply orb_false_iff in H as [Hc Hr].
  cbn [Js.match_segment_here]. rewrite Hc. apply IH, Hr.
Qed.

Lemma replace_first_segment_eq (s : string) :
  Js.replace_first_segment s
  = match Js.match_segment_here s with
    | Some rest => rest
    | None =>
        match s with
        | EmptyString => EmptyString
        | String c s' => String c (Js.replace_first_segment s')
        end
    end.
Proof. destruct s; reflexivity. Qed.

Lemma replace_first_segment_root (root rest : string) :
  Js.includes root "/" = false ->
  Js.replace_first_segment (root ++ "/" ++ rest) = rest.
Proof.
  intros H. rewrite replace_first_segment_eq.
  now rewrite (match_segment_here_root root rest H).
Qed.

(** Without a slash nothing matches and the string is returned as it is. *)
Lemma replace_first_segment_no_slash (s : string) :
  Js.includes s "/" = false -> Js.replace_first_segment s = s.
Proof.
  induction s as [|c s IH]; intros H; [reflexivity|].
  rewrite replace_first_segment_eq, (match_segment_here_none _ H).
  rewrite includes_slash_cons in H.
  apply orb_false_iff in H as [_ Hr].
  f_equal. apply IH, Hr.
Qed.

(* ================================================================== *)
(** * The output path *)
(* ================================================================== *)

Lemma rootSegment_root (root rest : string) :
  Js.includes root "/" = false -> rootSegment (root ++ "/" ++ rest) = root.
Proof.
  induction root as [|c root IH]; intros H; [reflexivity|].
  rewrite includes_slash_cons in H.
  apply orb_false_iff in H as [Hc Hr].
  cbn [append rootSegment]. rewrite Hc. f_equal. apply IH, Hr.
Qed.

(** C10: when [path.extname] returns the empty string, the replacement of
    the extension puts [.js] in front of the stripped path: the empty
    pattern of [String.prototype.replace] matches at position 0. *)
Theorem transformFilePath_no_extension :
  forall (P : Platform) (fileRelativePath : string),
    path_extname fileRelativePath = "" ->
    transformFilePath fileRelativePath
    = ".js" ++ Js.replace_first_segment fileRelativePath.
Proof.
  intros P p H. unfold transformFilePath. rewrite H.
  cbn [existsb String.eqb orb]. apply replace_empty_pattern.
Qed.

(** C10 on [src/Makefile], which resolves to [.jsMakefile], not to
    [Makefile.js]. *)
Lemma transformFilePath_no_extension_Makefile :
  Posix.extname "src/Makefile" = ""
  /\ @transformFilePath (Posix.platform "/") "src/Makefile" = ".jsMakefile"
  /\ @transformFilePath (Posix.platform "/") "src/Makefile" <> "Makefile.js".
Proof.
  split; [reflexivity|].
  split.
  - exact (transformFilePath_no_extension (Posix.platform "/") "src/Makefile" eq_refl).
  - rewrite (transformFilePath_no_extension (Posix.platform "/") "src/Makefile" eq_refl).
    discriminate.
Defined.

(** C4: on [src/my.tsconfig.ts], whose extension is [.ts], the resolver
    replaces the first [.ts] of the stripped path, the one of [.tsconfig],
    and leaves the extension in place. *)
Theorem transformFilePath_replaces_first_occurrence :
  forall cwd : string,
    @path_extname (Posix.platform cwd) "src/my.tsconfig.ts" = ".ts"
    /\ @transformFilePath (Posix.platform cwd) "src/my.tsconfig.ts" = "my.jsconfig.ts"
    /\ @transformFilePath (Posix.platform cwd) "src/my.tsconfig.ts" <> "my.tsconfig.js".
Proof.
  intros cwd. split; [reflexivity|]. split; [reflexivity|].
  change (@transformFilePath (Posix.platform cwd) "src/my.tsconfig.ts")
    with "my.jsconfig.ts".
  discriminate.
Qed.

(** C5, as the claim states it, fails on [src/src/a.ts]: the output
    [src/a.js] holds the root segment [src]. *)
Lemma transformFilePath_keeps_later_root_segment :
  rootSegment "src/src/a.ts" = "src"
  /\ @transformFilePath (Posix.platform "/") "src/src/a.ts" = "src/a.js"
  /\ ~ (forall fileRelativePath : string,
          Js.includes (@transformFilePath (Posix.platform "/") fileRelativePath)
                      (rootSegment fileRelativePath) = false).
Proof.
  split; [reflexivity|]. split; [reflexivity|].
  intros H. specialize (H "src/src/a.ts"). vm_compute in H. discriminate.
Qed.

(** C5, amended: of a path [root/rest] the resolver removes the leading
    [root/] once, and builds the output from [rest] alone: [.js] appended
    for a single-file component, the first occurrence of the extension
    replaced otherwise. *)
Theorem transformFilePath_strips_leading_root :
  forall (P : Platform) (root rest : string),
    Js.includes root "/" = false ->
    rootSegment (root ++ "/" ++ rest) = root
    /\ Js.replace_first_segment (root ++ "/" ++ rest) = rest
    /\ transformFilePath (root ++ "/" ++ rest)
       = (let extname := path_extname (root ++ "/" ++ rest) in
          if existsb (String.eqb extname) [".vue"; ".svelte"]
          then rest ++ ".js"
          else Js.replace extname ".js" rest).
Proof.
  intros P root rest H.
  split; [apply rootSegment_root, H|].
  split; [apply replace_first_segment_root, H|].
  unfold transformFilePath.
  now rewrite (replace_first_segment_root root rest H).
Qed.

(** The amended C5 on [src/src/a.ts]. *)
Lemma transformFilePath_strips_leading_root_src :
  rootSegment "src/src/a.ts" = "src"
  /\ Js.replace_first_segment "src/src/a.ts" = "src/a.ts"
  /\ @transformFilePath (Posix.platform "/") "src/src/a.ts" = "src/a.js".
Proof.
  exact (transformFilePath_strips_leading_root (Posix.platform "/")
           "src" "src/a.ts" eq_refl).
Defined.

(* ================================================================== *)
(** * Format specs and build units *)
(* ================================================================== *)

(** C2: a bare tag is normalized to the pair whose [outDir] is the tag, a
    pair is used as it is, and the unit handed to [lastBuild] carries that
    directory and format. *)
Theorem normalizeFormat_outDir :
  (forall tag : string,
      normalizeFormat (FormatTag tag) = {| format := tag; outDir := tag |}
      /\ buildUnit (FormatTag tag) = {| outputDir := tag; outputFormat := tag |})
  /\ (forall fmt dir : string,
         normalizeFormat (FormatSpec fmt dir) = {| format := fmt; outDir := dir |}
         /\ buildUnit (FormatSpec fmt dir)
            = {| outputDir := dir; outputFormat := fmt |})
  /\ (forall (P : Platform) (build : obj -> Outcome BuildOutput)
             (options : BuildFilesOptions) (fileRelativePath : string),
         formatBuilds build options fileRelativePath
         = map (fun f => lastBuild build options fileRelativePath
                           {| outputDir := outDir (normalizeFormat f);
                              outputFormat := format (normalizeFormat f) |})
               (formatsOf options)).
Proof.
  split; [intros tag; split; reflexivity|].
  split; [intros fmt dir; split; reflexivity|].
  intros P build options file.
  unfold formatBuilds, buildUnits. rewrite map_map. reflexivity.
Qed.

(** C1, as the claim states it, fails: the path written for the bare [cjs]
    tag is not [lib/util/math.js]. *)
Lemma scenario_paths_not_lib :
  map (fun u => outputFilePathOf u
                  (@transformFilePath (Posix.platform "/") Scenario.file))
      (buildUnits Scenario.options)
  <> ["lib/util/math.js"; "esm/util/math.js"].
Proof. vm_compute. discriminate. Qed.

(** C1, amended: for [src/util/math.ts] with formats [["cjs", {format:
    "es", outDir: "esm"}]], [transformFile] dispatches two build units, and
    the paths written on their output records are [cjs/util/math.js] and
    [esm/util/math.js]. *)
Theorem scenario_paths :
  forall (cwd : string) (build : obj -> Outcome BuildOutput),
    buildUnits Scenario.options = [Scenario.cjsUnit; Scenario.esUnit]
    /\ map (fun u => outputFilePathOf u
                       (@transformFilePath (Posix.platform cwd) Scenario.file))
           (buildUnits Scenario.options)
       = ["cjs/util/math.js"; "esm/util/math.js"]
    /\ @formatBuilds (Posix.platform cwd) build Scenario.options Scenario.file
       = [ match build (@createBuildConfig (Posix.platform cwd) Scenario.options
                          Scenario.file Scenario.cjsUnit) with
           | Rejected => Rejected
           | Fulfilled out => Fulfilled (annotate "cjs/util/math.js" out)
           end;
           match build (@createBuildConfig (Posix.platform cwd) Scenario.options
                          Scenario.file Scenario.esUnit) with
           | Rejected => Rejected
           | Fulfilled out => Fulfilled (annotate "esm/util/math.js" out)
           end ].
Proof.
  intros cwd build. split; [reflexivity|]. split; reflexivity.
Qed.

(* ================================================================== *)
(** * The default external classifier *)
(* ================================================================== *)

(** C6: without a caller's classifier, a module id whose normalized path is
    the resolved path of the input file itself gets [false], whatever the
    file's extension.  ([false] is the value the spec names "external"; for
    rollup, and for the comment of lines 232-233 of the source, [false]
    keeps the module out of the externals.) *)
Theorem externalClassifier_self_reference :
  forall (P : Platform) (ownerFile id : string)
         (importer : option string) (isResolved : option bool),
    path_normalize id = path_resolve [process_cwd; ownerFile] ->
    lastRollupOptionsExternal None ownerFile
    = VFun (FnExternal (externalClassifier None ownerFile))
    /\ externalClassifier None ownerFile id importer isResolved = Some false.
Proof.
  intros P ownerFile id importer isResolved H.
  split; [reflexivity|].
  unfold externalClassifier. rewrite H, String.eqb_refl.
  now rewrite !orb_true_r.
Qed.

(** C6 on [ownerFile = "src/a.ts"] under [/home/user/project]. *)
Lemma externalClassifier_self_reference_a_ts :
  Posix.normalize "/home/user/project/src/a.ts"
  = Posix.resolve "/home/user/project" ["/home/user/project"; "src/a.ts"]
  /\ @externalClassifier (Posix.platform "/home/user/project") None "src/a.ts"
       "/home/user/project/src/a.ts" None (Some true) = Some false.
Proof.
  split; [vm_compute; reflexivity|].
  apply (externalClassifier_self_reference
           (Posix.platform "/home/user/project") "src/a.ts"
           "/home/user/project/src/a.ts" None (Some true)).
  vm_compute; reflexivity.
Defined.

(** C7: without a caller's classifier, a module id ending in [.css],
    [.scss], [.less], [.sass], [.svg] or [.json] gets [false] (the value
    the spec names "external", see C6). *)
Theorem externalClassifier_asset_suffix :
  forall (P : Platform) (ownerFile stem suffix : string)
         (importer : option string) (isResolved : option bool),
    In suffix assetSuffixes ->
    externalClassifier None ownerFile (stem ++ suffix) importer isResolved
    = Some false.
Proof.
  intros P ownerFile stem suffix importer isResolved Hin.
  pose proof (includes_suffix stem suffix) as Hs.
  unfold externalClassifier, isJson, isAsset.
  unfold assetSuffixes in Hin. cbn [In] in Hin.
  destruct Hin as [<-|[<-|[<-|[<-|[<-|[<-|[]]]]]]];
    rewrite Hs; now rewrite ?orb_true_r.
Qed.

(** C7 on the import [./styles/main.css]. *)
Lemma externalClassifier_asset_suffix_main_css :
  In ".css" assetSuffixes
  /\ @externalClassifier (Posix.platform "/home/user/project") None "src/a.ts"
       "./styles/main.css" (Some "/home/user/project/src/a.ts") (Some false)
     = Some false.
Proof.
  split; [left; reflexivity | ].
  exact (externalClassifier_asset_suffix (Posix.platform "/home/user/project")
           "src/a.ts" "./styles/main" ".css"
           (Some "/home/user/project/src/a.ts") (Some false)
           (or_introl eq_refl)).
Defined.

(* ================================================================== *)
(** * The output directory of the synthesized configuration *)
(* ================================================================== *)

Lemma obj_get_set_same (k : string) (v : value) (o : obj) :
  obj_get k (obj_set k v o) = Some v.
Proof.
  induction o as [|[k' v'] o IH]; cbn [obj_set obj_get].
  - now rewrite String.eqb_refl.
  - destruct (String.eqb k k') eqn:E; cbn [obj_get]; rewrite E; [reflexivity | exact IH].
Qed.

Lemma obj_get_set_other (k k' : string) (v : value) (o : obj) :
  String.eqb k k' = false -> obj_get k (obj_set k' v o) = obj_get k o.
Proof.
  intros Hk.
  induction o as [|[k0 v0] o IH]; cbn [obj_set obj_get].
  - now rewrite Hk.
  - destruct (String.eqb k' k0) eqn:E; cbn [obj_get].
    + apply String.eqb_eq in E. subst k0. now rewrite Hk.
    + now rewrite IH.
Qed.

(** A field written last in an object literal is the one that is read. *)
Lemma object_last_field (ms : list member) (k : string) (v : value) :
  obj_get k (object (ms ++ [Field k v])%list) = Some v.
Proof.
  unfold object. rewrite fold_left_app. cbn [fold_left add_member].
  apply obj_get_set_same.
Qed.

Section OutputDirectory.

Context {P : Platform}.
Variable options : BuildFilesOptions.
Variable fileRelativePath : string.
Variable o : CreateBuildConfigOptions.

(** [dir] comes after the spread of [rollupOptionsOutput] in the literal:
    whatever that option holds, the entry's [dir] is the computed one. *)
Lemma outputEntry_dir :
  obj_get "dir" (outputEntry options fileRelativePath o)
  = Some (computedDir fileRelativePath o).
Proof.
  unfold outputEntry.
  match goal with
  | |- obj_get _ (object [?a; ?b; ?c; ?d; ?e; ?f; ?g]) = _ =>
      change [a; b; c; d; e; f; g] with ([a; b; c; d; e; f] ++ [g])%list
  end.
  apply object_last_field.
Qed.

Lemma defaultBuildConfig_rollupOptions :
  exists ro : obj,
    obj_get "rollupOptions" (defaultBuildConfig options fileRelativePath o)
    = Some (VObj ro)
    /\ obj_get "output" ro
       = Some (VArr [VObj (outputEntry options fileRelativePath o)]).
Proof.
  eexists. split.
  - unfold defaultBuildConfig, object. cbn [fold_left add_member obj_set obj_get].
    lazy [String.eqb Ascii.eqb Bool.eqb obj_get obj_set]. reflexivity.
  - unfold object. cbn [fold_left add_member obj_set obj_get].
    lazy [String.eqb Ascii.eqb Bool.eqb obj_get obj_set]. reflexivity.
Qed.

Lemma createBuildConfig_build :
  obj_get "build" (createBuildConfig options fileRelativePath o)
  = Some (VObj (buildConfig options fileRelativePath o)).
Proof.
  unfold createBuildConfig.
  match goal with
  | |- obj_get _ (object [?a; ?b; ?c; ?d; ?e; ?f]) = _ =>
      change [a; b; c; d; e; f] with ([a; b; c; d; e] ++ [f])%list
  end.
  apply object_last_field.
Qed.

End OutputDirectory.

(** An override that holds nothing under [key] leaves [key] as it is. *)
Lemma mergeProps_untouched (merge : value -> value -> value) (key : string) :
  forall overrides merged : obj,
    forallb (fun kv => negb (String.eqb (fst kv) key) || isNullish (snd kv))
            overrides = true ->
    obj_get key (Vite.mergeProps merge merged overrides) = obj_get key merged.
Proof.
  induction overrides as [|[k v] rest IH]; intros merged H; [reflexivity|].
  cbn [forallb fst snd] in H. apply andb_true_iff in H as [Hkv Hrest].
  cbn [Vite.mergeProps]. rewrite (IH _ Hrest).
  destruct (isNullish v) eqn:Hv; [reflexivity|].
  rewrite orb_false_r in Hkv. apply negb_true_iff in Hkv.
  assert (Hne : String.eqb key k = false) by now rewrite String.eqb_sym.
  destruct (obj_get k merged) as [existing|];
    [destruct (isNullish existing)|]; now apply obj_get_set_other.
Qed.

Lemma mergeProps_rollupOptions_output :
  forall overrides merged ro : obj,
    forallb keepsOutput overrides = true ->
    obj_get "rollupOptions" merged = Some (VObj ro) ->
    exists ro' : obj,
      obj_get "rollupOptions" (Vite.mergeProps Vite.mergeValue merged overrides)
      = Some (VObj ro')
      /\ obj_get "output" ro' = obj_get "output" ro.
Proof.
  induction overrides as [|[k v] rest IH]; intros merged ro H Hm.
  - exists ro. split; [exact Hm | reflexivity].
  - cbn [forallb] in H. apply andb_true_iff in H as [Hkv Hrest].
    cbn [Vite.mergeProps].
    destruct (isNullish v) eqn:Hv; [now apply (IH merged ro)|].
    unfold keepsOutput in Hkv. cbn [fst snd] in Hkv.
    destruct (String.eqb k "rollupOptions") eqn:Hk.
    + apply String.eqb_eq in Hk. subst k. rewrite Hm. cbn [isNullish].
      destruct v as [| | | | | | |items|rov]; try discriminate.
      cbn [negb orb] in Hkv.
      destruct (IH (obj_set "rollupOptions"
                      (Vite.mergeValue (VObj ro) (VObj rov)) merged)
                   (Vite.mergeProps Vite.mergeValue ro rov) Hrest) as [ro' [H1 H2]].
      { now rewrite obj_get_set_same. }
      exists ro'. split; [exact H1|].
      rewrite H2. now apply mergeProps_untouched.
    + assert (Hne : String.eqb "rollupOptions" k = false)
        by now rewrite String.eqb_sym.
      destruct (obj_get k merged) as [existing|];
        [destruct (isNullish existing)|];
        (apply IH; [exact Hrest | now rewrite obj_get_set_other]).
Qed.

(** C3, as the claim states it, fails: [buildOptions] is merged over the
    defaults by [mergeConfig] after [dir] is computed, and an [output] array
    among them is concatenated to the computed entry; the configuration then
    writes to [elsewhere] as well. *)
Lemma buildOptions_adds_output_dir :
  outputDirs (@createBuildConfig (Posix.platform "/home/user/project")
                Redirect.options "src/a.ts" Redirect.unit_)
  = [Some (VStr "/home/user/project/lib"); Some (VStr "elsewhere")]
  /\ outputDirs (@createBuildConfig (Posix.platform "/home/user/project")
                   Redirect.options "src/a.ts" Redirect.unit_)
     <> [Some (@computedDir (Posix.platform "/home/user/project")
                 "src/a.ts" Redirect.unit_)].
Proof.
  split; [vm_compute; reflexivity|].
  vm_compute. discriminate.
Qed.

(** C3, amended: for every input file, format spec and [rollupOptionsOutput]
    (value or function), and for every [buildOptions] (value or function)
    that says nothing of [rollupOptions.output], the synthesized
    configuration has one output entry and its [dir] is
    [dirname(resolve(outDir, transformFilePath))]. *)
Theorem createBuildConfig_dir :
  forall (P : Platform) (options : BuildFilesOptions)
         (fileRelativePath : string) (o : CreateBuildConfigOptions),
    leavesOutputAlone (lastBuildOptions options fileRelativePath) = true ->
    outputDirs (createBuildConfig options fileRelativePath o)
    = [Some (computedDir fileRelativePath o)].
Proof.
  intros P options file o H.
  unfold outputDirs. rewrite createBuildConfig_build.
  destruct (defaultBuildConfig_rollupOptions options file o) as [ro [Hro Hout]].
  assert (Hmerged : exists ro' : obj,
             obj_get "rollupOptions" (buildConfig options file o) = Some (VObj ro')
             /\ obj_get "output" ro' = obj_get "output" ro).
  { unfold buildConfig, Vite.mergeConfig.
    destruct (lastBuildOptions options file) as [ov|].
    - apply mergeProps_rollupOptions_output; assumption.
    - exists ro. split; [exact Hro | reflexivity]. }
  destruct Hmerged as [ro' [H1 H2]].
  unfold outputsOfBuild. rewrite H1, H2, Hout.
  cbn [map dirOf]. now rewrite outputEntry_dir.
Qed.

(** The amended C3 for a caller whose [rollupOptionsOutput] sets [dir]. *)
Lemma createBuildConfig_dir_override :
  leavesOutputAlone (lastBuildOptions Override.options "src/util/math.ts") = true
  /\ outputDirs (@createBuildConfig (Posix.platform "/home/user/project")
                   Override.options "src/util/math.ts" Override.unit_)
     = [Some (VStr "/home/user/project/es/util")].
Proof.
  split; [reflexivity|].
  apply (createBuildConfig_dir (Posix.platform "/home/user/project")
           Override.options "src/util/math.ts" Override.unit_).
  reflexivity.
Defined.

(* ================================================================== *)
(** * Running a batch *)
(* ================================================================== *)

Lemma In_numbered (n : nat) (l : list string) (f : string) :
  In f l -> exists k, In (SingleFileBuildSuccess k f) (numbered n l).
Proof.
  revert n. induction l as [|g l IH]; intros n H; [contradiction|].
  destruct H as [->|H].
  - exists (n + 1). now left.
  - destruct (IH (n + 1) H) as [k Hk]. exists k. now right.
Qed.

Lemma numbered_In (n : nat) (l : list string) (e : Event) :
  In e (numbered n l) -> exists k f, e = SingleFileBuildSuccess k f /\ In f l.
Proof.
  revert n. induction l as [|g l IH]; intros n H; [contradiction|].
  destruct H as [<-|H].
  - exists (n + 1), g. split; [reflexivity | now left].
  - destruct (IH _ H) as (k & f & He & Hf). exists k, f. split; [exact He | now right].
Qed.

Lemma filter_length_Permutation {A : Type} (p : A -> bool) (l l' : list A) :
  Permutation l l' -> List.length (filter p l) = List.length (filter p l').
Proof.
  induction 1 as [|x l l' _ IH|x y l|l l' l'' _ IH1 _ IH2]; cbn [filter].
  - reflexivity.
  - destruct (p x); cbn [List.length]; now rewrite IH.
  - destruct (p x), (p y); reflexivity.
  - now rewrite IH1.
Qed.

Lemma state_eta (s : ProcessState) :
  s = {| incrementCount := incrementCount s; trace := trace s |}.
Proof. now destruct s. Qed.

Section BatchRun.

Context {P : Platform}.
Variable build : obj -> Outcome BuildOutput.
Variable fg_sync : list string -> list string -> list string.
Variable completionOrder : list string -> list string.
Variable options : BuildFilesOptions.

Let ok : string -> bool := fileSucceeds build options.
Let worker : string -> M (Outcome string) :=
  fun fileRelativePath => transformFile build fileRelativePath options.
Let callback : bool := singleFileBuildSuccessCallback options.

(** One file: a unit whose builds all resolve adds one to the counter and
    reports it; a unit with a rejected build touches nothing. *)
Lemma transformFile_run (f : string) (s : ProcessState) :
  worker f s
  = if ok f
    then (Fulfilled f,
          {| incrementCount := incrementCount s + 1;
             trace := (trace s
                       ++ (if callback
                           then [SingleFileBuildSuccess (incrementCount s + 1) f]
                           else []))%list |})
    else (Rejected, s).
Proof.
  unfold worker, ok, callback, transformFile, fileSucceeds.
  destruct (promiseAll (formatBuilds build options f)) as [outs|]; cbn [isRejected negb].
  - unfold bind, getCount, setCount, when, emit, ret; cbn.
    destruct (singleFileBuildSuccessCallback options); cbn;
      [reflexivity | now rewrite app_nil_r].
  - reflexivity.
Qed.

Lemma runWorkers_run (items : list string) :
  forall s : ProcessState,
    runWorkers worker items s
    = (existsb (fun f => negb (ok f)) items,
       {| incrementCount := incrementCount s + List.length (filter ok items);
          trace := (trace s
                    ++ (if callback
                        then numbered (incrementCount s) (filter ok items)
                        else []))%list |}).
Proof.
  induction items as [|f items IH]; intros s.
  - cbn. rewrite Nat.add_0_r. destruct callback; rewrite app_nil_r;
      now rewrite <- state_eta.
  - cbn [runWorkers]. unfold bind at 1. rewrite transformFile_run.
    cbn [existsb filter].
    destruct (ok f); unfold bind; rewrite IH; cbn [isRejected negb orb fst snd
      incrementCount trace List.length ret].
    + unfold ret. f_equal. f_equal; [lia|].
      rewrite <- app_assoc. destruct callback; reflexivity.
    + reflexivity.
Qed.

Lemma runInTaskPool_run (items : list string) (limit : nat) (s : ProcessState) :
  runInTaskPool completionOrder items worker limit s
  = ({| hasPartialError :=
          existsb (fun f => negb (ok f)) (completionOrder items) |},
     snd (runWorkers worker (completionOrder items) s)).
Proof.
  unfold runInTaskPool, bind, ret. now rewrite runWorkers_run.
Qed.

Lemma buildFiles_run (s : ProcessState) :
  buildFiles build fg_sync completionOrder options s
  = (tt, {| incrementCount := 0;
            trace := (trace s
                      ++ batchEvents build fg_sync completionOrder options)%list |}).
Proof.
  unfold buildFiles, batchEvents. cbv zeta.
  fold worker. fold ok. fold callback.
  set (files := srcFilePaths fg_sync options).
  unfold bind at 1. unfold setCount at 1.
  unfold bind at 1.
  set (s1 := snd (when (startBuild options) (emit (StartBuild (List.length files)))
                    {| incrementCount := 0; trace := trace s |})).
  assert (Hs1 : when (startBuild options) (emit (StartBuild (List.length files)))
                  {| incrementCount := 0; trace := trace s |}
                = (tt, {| incrementCount := 0;
                          trace := (trace s
                                    ++ (if startBuild options
                                        then [StartBuild (List.length files)]
                                        else []))%list |})).
  { unfold when, emit, ret. destruct (startBuild options); cbn;
      [reflexivity | now rewrite app_nil_r]. }
  rewrite Hs1. unfold bind at 1. rewrite runInTaskPool_run, runWorkers_run.
  cbn [snd incrementCount trace hasPartialError Nat.add].
  unfold bind, when, emit, getCount, setCount, ret.
  destruct (existsb (fun f => negb (ok f)) (completionOrder files));
    destruct (endBuild options); cbn [incrementCount trace fst snd];
    rewrite <- ?app_assoc, ?app_nil_r; reflexivity.
Qed.

End BatchRun.

Lemma In_optional {A : Type} (b : bool) (x e : A) :
  In e (if b then [x] else []) <-> b = true /\ e = x.
Proof.
  destruct b; cbn [In]; split.
  - intros [<-|[]]. now split.
  - intros [_ ->]. now left.
  - contradiction.
  - intros [H _]. discriminate.
Qed.

Lemma batchEvents_In (P : Platform) (build : obj -> Outcome BuildOutput)
    (fg_sync : list string -> list string -> list string)
    (completionOrder : list string -> list string)
    (options : BuildFilesOptions) (e : Event) :
  let files := srcFilePaths fg_sync options in
  let ok := fileSucceeds build options in
  In e (batchEvents build fg_sync completionOrder options)
  <-> (startBuild options = true /\ e = StartBuild (List.length files))
      \/ (singleFileBuildSuccessCallback options = true
          /\ In e (numbered 0 (filter ok (completionOrder files))))
      \/ (existsb (fun f => negb (ok f)) (completionOrder files) = true
          /\ e = ConsoleErrorRed partialErrorMessage)
      \/ (endBuild options = true
          /\ e = EndBuild (List.length (filter ok (completionOrder files)))).
Proof.
  intros files ok. unfold batchEvents. cbv zeta. fold files. fold ok.
  rewrite !in_app_iff, !In_optional.
  destruct (singleFileBuildSuccessCallback options); cbn [In]; intuition congruence.
Qed.

Lemma existsb_Permutation {A : Type} (p : A -> bool) (l l' : list A) :
  Permutation l l' -> existsb p l = existsb p l'.
Proof.
  induction 1 as [|x l l' _ IH|x y l|l l' l'' _ IH1 _ IH2]; cbn [existsb].
  - reflexivity.
  - now rewrite IH.
  - now destruct (p x), (p y).
  - now rewrite IH1.
Qed.

(** C8: one batch, under the pool's contract.  Every file whose builds all
    resolve reports success through the per-file callback, and only such
    files do; the pool raises [hasPartialError] exactly when a file's unit
    failed; the red diagnostic line is written exactly when the pool raises
    the flag; and the batch-end callback is called, with the number of
    files that succeeded. *)
Theorem buildFiles_partial_failure :
  forall (P : Platform) (build : obj -> Outcome BuildOutput)
         (fg_sync : list string -> list string -> list string)
         (completionOrder : list string -> list string)
         (options : BuildFilesOptions) (s : ProcessState),
    (forall l, Permutation (completionOrder l) l) ->
    singleFileBuildSuccessCallback options = true ->
    endBuild options = true ->
    let files := srcFilePaths fg_sync options in
    let ok := fileSucceeds build options in
    let pool := fun d : ProcessState =>
      fst (runInTaskPool completionOrder files
             (fun fileRelativePath => transformFile build fileRelativePath options)
             20 d) in
    exists events : list Event,
      trace (snd (buildFiles build fg_sync completionOrder options s))
      = (trace s ++ events)%list
      /\ (forall f, In f files -> ok f = true ->
                    exists k, In (SingleFileBuildSuccess k f) events)
      /\ (forall f k, In (SingleFileBuildSuccess k f) events ->
                      In f files /\ ok f = true)
      /\ (forall d, hasPartialError (pool d) = true
                    <-> exists f, In f files /\ ok f = false)
      /\ (forall d, In (ConsoleErrorRed partialErrorMessage) events
                    <-> hasPartialError (pool d) = true)
      /\ In (EndBuild (List.length (filter ok files))) events
      /\ (forall n, In (EndBuild n) events -> n = List.length (filter ok files)).
Proof.
  intros P build fg_sync completionOrder options s Hperm Hcb Hend files ok pool.
  exists (batchEvents build fg_sync completionOrder options).
  pose proof (Hperm files) as Hp.
  assert (Hflag : forall d, hasPartialError (pool d)
                            = existsb (fun f => negb (ok f)) files).
  { intros d. unfold pool. rewrite runInTaskPool_run. cbn [fst hasPartialError].
    now apply existsb_Permutation. }
  assert (Hlen : List.length (filter ok (completionOrder files))
                 = List.length (filter ok files))
    by now apply filter_length_Permutation.
  split; [now rewrite buildFiles_run|].
  split; [|split; [|split; [|split; [|split]]]].
  - intros f Hf Hok.
    destruct (In_numbered 0 (filter ok (completionOrder files)) f) as [k Hk].
    { apply filter_In. split; [|exact Hok].
      now apply (Permutation_in f (Permutation_sym Hp)). }
    exists k. apply batchEvents_In. right. left. now split.
  - intros f k H. apply batchEvents_In in H.
    destruct H as [[_ H]|[[_ H]|[[_ H]|[_ H]]]]; try discriminate.
    apply numbered_In in H as (k' & f' & He & Hf). injection He as _ <-.
    apply filter_In in Hf as [Hf Hok].
    split; [now apply (Permutation_in f Hp) | exact Hok].
  - intros d. rewrite Hflag, existsb_exists.
    split; intros [f [Hf Hok]]; exists f; (split; [exact Hf|]).
    + now apply negb_true_iff.
    + now apply negb_true_iff.
  - intros d. rewrite Hflag, batchEvents_In.
    cbv zeta. fold files. fold ok. rewrite (existsb_Permutation _ _ _ Hp).
    split.
    + intros [[_ H]|[[_ H]|[[H _]|[_ H]]]]; try discriminate; [|exact H].
      apply numbered_In in H as (k' & f' & He & _). discriminate.
    + intros H. right. right. left. now split.
  - apply batchEvents_In. right. right. right. fold files. fold ok.
    rewrite Hlen. now split.
  - intros n H. apply batchEvents_In in H. fold files in H. fold ok in H.
    destruct H as [[_ H]|[[_ H]|[[_ H]|[_ H]]]]; try discriminate.
    + apply numbered_In in H as (k' & f' & He & _). discriminate.
    + injection H as ->. exact Hlen.
Qed.

(** C8 on three files, the build of the second one throwing and the third
    one finishing first. *)
Lemma buildFiles_partial_failure_three_files :
  trace (snd (@buildFiles ThreeFiles.platform ThreeFiles.build ThreeFiles.glob
                ThreeFiles.order ThreeFiles.options ThreeFiles.start))
  = [ StartBuild 3;
      SingleFileBuildSuccess 1 "src/c.ts";
      SingleFileBuildSuccess 2 "src/a.ts";
      ConsoleErrorRed partialErrorMessage;
      EndBuild 2 ]
  /\ In (EndBuild 2)
        (trace (snd (@buildFiles ThreeFiles.platform ThreeFiles.build
                       ThreeFiles.glob ThreeFiles.order ThreeFiles.options
                       ThreeFiles.start))).
Proof.
  split; [vm_compute; reflexivity|].
  destruct (buildFiles_partial_failure ThreeFiles.platform ThreeFiles.build
              ThreeFiles.glob ThreeFiles.order ThreeFiles.options
              ThreeFiles.start
              (fun l => Permutation_sym (Permutation_rev l)) eq_refl eq_refl)
    as (events & Ht & _ & _ & _ & _ & Hend & _).
  rewrite Ht. apply in_or_app. right.
  assert (Hc : List.length
                 (filter (@fileSucceeds ThreeFiles.platform ThreeFiles.build
                            ThreeFiles.options)
                         (srcFilePaths ThreeFiles.glob ThreeFiles.options)) = 2)
    by (vm_compute; reflexivity).
  rewrite Hc in Hend. exact Hend.
Defined.





(* ================================================================== *)
(** * More on the string primitives *)
(* ================================================================== *)

Lemma str_append_nil_r (s : string) : s ++ "" = s.
Proof. induction s as [|c s IH]; cbn [append]; [reflexivity | now rewrite IH]. Qed.

Lemma str_append_assoc (a b c : string) : (a ++ b) ++ c = a ++ b ++ c.
Proof. induction a as [|x a IH]; cbn [append]; [reflexivity | now rewrite IH]. Qed.

Lemma str_length_append (a b : string) :
  String.length (a ++ b) = String.length a + String.length b.
Proof. induction a as [|x a IH]; cbn [append String.length]; [reflexivity | now rewrite IH]. Qed.

Lemma startsWith_char (d c : ascii) (s : string) :
  Js.startsWith (String d "") (String c s) = Ascii.eqb c d.
Proof.
  rewrite startsWith_cons, startsWith_empty.
  destruct (ascii_dec d c) as [e|ne].
  - subst c. symmetry. apply Ascii.eqb_refl.
  - symmetry. apply Ascii.eqb_neq. congruence.
Qed.

Lemma includes_char_cons (d c : ascii) (s : string) :
  Js.includes (String c s) (String d "")
  = Ascii.eqb c d || Js.includes s (String d "").
Proof.
  rewrite includes_eq, startsWith_char. now destruct (Ascii.eqb c d).
Qed.

Lemma includes_char_app (d : ascii) (a b : string) :
  Js.includes (a ++ b) (String d "")
  = Js.includes a (String d "") || Js.includes b (String d "").
Proof.
  induction a as [|c a IH].
  - reflexivity.
  - cbn [append]. rewrite !includes_char_cons, IH. apply orb_assoc.
Qed.

(** A unit of a string free of [d] is not [d]. *)
Lemma get_not_char (d : ascii) (s : string) :
  Js.includes s (String d "") = false ->
  forall (i : nat) (c : ascii), String.get i s = Some c -> Ascii.eqb c d = false.
Proof.
  induction s as [|x s IH]; intros H i c Hg; [discriminate|].
  rewrite includes_char_cons in H. apply orb_false_iff in H as [Hx Hs].
  destruct i as [|i]; cbn [String.get] in Hg.
  - now injection Hg as <-.
  - exact (IH Hs i c Hg).
Qed.

Lemma startsWith_app (pat s : string) : Js.startsWith pat (pat ++ s) = true.
Proof.
  induction pat as [|c pat IH]; [apply startsWith_empty|].
  cbn [append]. rewrite startsWith_cons.
  destruct (ascii_dec c c) as [_|ne]; [exact IH | now elim ne].
Qed.

Lemma startsWith_inv (pat s : string) :
  Js.startsWith pat s = true -> exists b, s = pat ++ b.
Proof.
  revert s. induction pat as [|c pat IH]; intros s H.
  - now exists s.
  - destruct s as [|x s]; [discriminate|].
    rewrite startsWith_cons in H.
    destruct (ascii_dec c x) as [<-|ne]; [|discriminate].
    destruct (IH s H) as [b ->]. now exists b.
Qed.

(** [includes] finds a pattern wherever it lies ... *)
Lemma includes_infix (a pat b : string) : Js.includes (a ++ pat ++ b) pat = true.
Proof.
  induction a as [|c a IH].
  - cbn [append]. now rewrite includes_eq, startsWith_app.
  - cbn [append]. rewrite includes_eq.
    destruct (Js.startsWith pat (String c (a ++ pat ++ b))); [reflexivity | exact IH].
Qed.

(** ... and finds it only where it lies. *)
Lemma includes_inv (s pat : string) :
  Js.includes s pat = true -> exists a b, s = a ++ pat ++ b.
Proof.
  induction s as [|c s IH]; intros H; rewrite includes_eq in H.
  - destruct (Js.startsWith pat "") eqn:E; [|discriminate].
    destruct (startsWith_inv _ _ E) as [b Hb]. now exists "", b.
  - destruct (Js.startsWith pat (String c s)) eqn:E.
    + destruct (startsWith_inv _ _ E) as [b Hb]. now exists "", b.
    + destruct (IH H) as (a & b & ->). now exists (String c a), b.
Qed.

Lemma includes_trans (s pat q : string) :
  Js.includes s pat = true -> Js.includes pat q = true -> Js.includes s q = true.
Proof.
  intros H1 H2.
  destruct (includes_inv _ _ H1) as (a & b & ->).
  destruct (includes_inv _ _ H2) as (a' & b' & ->).
  rewrite !str_append_assoc, <- (str_append_assoc a a').
  apply includes_infix.
Qed.

Lemma drop_length_append (s t : string) : Js.drop (String.length s) (s ++ t) = t.
Proof. induction s as [|c s IH]; cbn; [now destruct t | exact IH]. Qed.

Lemma replace_eq (pat rep s : string) :
  Js.replace pat rep s
  = if Js.startsWith pat s then rep ++ Js.drop (String.length pat) s
    else match s with
         | EmptyString => EmptyString
         | String c s' => String c (Js.replace pat rep s')
         end.
Proof. destruct s; reflexivity. Qed.

(** A pattern that starts with a dot, at the end of a string whose front
    holds no dot: the first occurrence is the one at the end. *)
Lemma replace_dot_suffix (e rep stem : string) :
  Js.includes stem "." = false ->
  Js.replace (String "." e) rep (stem ++ String "." e) = stem ++ rep.
Proof.
  induction stem as [|c stem IH]; intros H.
  - cbn [append]. rewrite replace_eq, startsWith_refl.
    pose proof (drop_length_append (String "." e) "") as Hd.
    rewrite str_append_nil_r in Hd. rewrite Hd. apply str_append_nil_r.
  - rewrite includes_char_cons in H. apply orb_false_iff in H as [Hc Hs].
    cbn [append]. rewrite replace_eq, startsWith_cons.
    destruct (ascii_dec "." c) as [<-|_]; [discriminate|].
    now rewrite (IH Hs).
Qed.

Lemma substring_all (s t : string) : substring 0 (String.length s) (s ++ t) = s.
Proof.
  induction s as [|c s IH]; cbn [String.length append substring].
  - now destruct t.
  - now rewrite IH.
Qed.

Lemma substring_suffix (p s : string) :
  substring (String.length p) (String.length s) (p ++ s) = s.
Proof.
  induction p as [|c p IH]; cbn [String.length append].
  - rewrite <- (str_append_nil_r s) at 2. apply substring_all.
  - cbn [substring]. exact IH.
Qed.

(** The last unit of a non-empty string. *)
Lemma get_last (a b : string) :
  b <> "" ->
  String.get (String.length (a ++ b) - 1) (a ++ b)
  = String.get (String.length b - 1) b.
Proof.
  intros Hb. rewrite (append_correct2 a b (String.length b - 1)).
  f_equal. rewrite str_length_append.
  destruct b as [|c b]; [now elim Hb|]. cbn [String.length]. lia.
Qed.

Lemma endsWithSlash_append (a b : string) :
  b <> "" -> Posix.endsWithSlash (a ++ b) = Posix.endsWithSlash b.
Proof. intros Hb. unfold Posix.endsWithSlash. now rewrite get_last. Qed.

Lemma get_last_some (s : string) :
  s <> "" -> exists c, String.get (String.length s - 1) s = Some c.
Proof.
  induction s as [|x s IH]; intros H; [now elim H|].
  destruct s as [|y s].
  - now exists x.
  - destruct IH as [c Hc]; [discriminate|]. exists c.
    replace (String.length (String x (String y s)) - 1)
      with (S (String.length (String y s) - 1))
      by (cbn [String.length]; lia).
    exact Hc.
Qed.

(* ================================================================== *)
(** * [path.extname] on a path that ends in a plain extension *)
(* ================================================================== *)

Lemma get_some (s : string) (i : nat) :
  i < String.length s -> exists c, String.get i s = Some c.
Proof.
  revert i. induction s as [|x s IH]; intros i H; cbn [String.length] in H; [lia|].
  destruct i as [|i]; [now exists x|]. apply IH. lia.
Qed.

(** The scan passes over units that are neither a dot nor a separator; the
    first of them marks the end of the extension. *)
Lemma extname_loop_plain_run (path : string) :
  forall (k n : nat) (st : Posix.ExtScan),
    (forall i, n <= i < n + k ->
       exists c, String.get i path = Some c
                 /\ Posix.isPathSeparator c = false
                 /\ Ascii.eqb c Posix.CHAR_DOT = false) ->
    Posix.startDot st = (-1)%Z ->
    Posix.extname_loop path (n + k) st
    = Posix.extname_loop path n
        (if (k =? 0)%nat then st
         else if (Posix.end_ st =? -1)%Z then
           {| Posix.startDot := Posix.startDot st;
              Posix.startPart := Posix.startPart st;
              Posix.end_ := Z.of_nat (n + k);
              Posix.matchedSlash := false;
              Posix.preDotState := Posix.preDotState st |}
         else st).
Proof.
  induction k as [|k IH]; intros n st Hrun Hdot.
  - now rewrite Nat.add_0_r.
  - rewrite Nat.add_succ_r. cbn [Posix.extname_loop Nat.eqb].
    destruct (Hrun (n + k)) as (c & Hg & Hsep & Hc); [lia|].
    rewrite Hg, Hsep, Hc. cbv zeta.
    destruct st as [sd sp en ms pd]. cbn in Hdot. subst sd.
    cbn [Posix.startDot Posix.startPart Posix.end_ Posix.matchedSlash
           Posix.preDotState].
    destruct (en =? -1)%Z eqn:He;
      cbn [Posix.startDot Posix.startPart Posix.end_ Posix.matchedSlash
             Posix.preDotState];
      change (negb (-1 =? -1)%Z) with false; cbv iota;
      (rewrite IH; [|intros i Hi; apply Hrun; lia | reflexivity]);
      cbn [Posix.startDot Posix.startPart Posix.end_ Posix.matchedSlash
             Posix.preDotState].
    + assert (Hne : (Z.of_nat (n + k) + 1 =? -1)%Z = false) by (apply Z.eqb_neq; lia).
      rewrite Hne.
      replace (Z.of_nat (n + k) + 1)%Z with (Z.of_nat (S (n + k))) by lia.
      now destruct (k =? 0)%nat.
    + rewrite He. now destruct (k =? 0)%nat.
Qed.

(** Once a dot is found after the end of the extension, the scan keeps
    both, and has seen a unit in front of the dot. *)
Lemma extname_loop_settled (path : string) :
  forall (n : nat) (st : Posix.ExtScan),
    Posix.startDot st <> (-1)%Z ->
    Posix.end_ st <> (-1)%Z ->
    Posix.preDotState st <> 0%Z ->
    Posix.startDot (Posix.extname_loop path n st) = Posix.startDot st
    /\ Posix.end_ (Posix.extname_loop path n st) = Posix.end_ st
    /\ Posix.preDotState (Posix.extname_loop path n st) <> 0%Z.
Proof.
  induction n as [|n IH]; intros st Hd He Hp; cbn [Posix.extname_loop].
  - now repeat split.
  - destruct (String.get n path) as [c|]; [|now repeat split].
    destruct (Posix.isPathSeparator c).
    + destruct (negb (Posix.matchedSlash st)); [now repeat split | now apply IH].
    + cbv zeta. apply Z.eqb_neq in He as He'. rewrite He'.
      apply Z.eqb_neq in Hd as Hd'. rewrite Hd'. cbn [negb].
      destruct (Ascii.eqb c Posix.CHAR_DOT).
      * destruct (Posix.preDotState st =? 1)%Z; cbn [negb].
        -- now apply IH.
        -- destruct (IH {| Posix.startDot := Posix.startDot st;
                           Posix.startPart := Posix.startPart st;
                           Posix.end_ := Posix.end_ st;
                           Posix.matchedSlash := Posix.matchedSlash st;
                           Posix.preDotState := 1 |}) as (H1 & H2 & H3);
             cbn; try assumption; try discriminate.
           now repeat split.
      * destruct (IH {| Posix.startDot := Posix.startDot st;
                        Posix.startPart := Posix.startPart st;
                        Posix.end_ := Posix.end_ st;
                        Posix.matchedSlash := Posix.matchedSlash st;
                        Posix.preDotState := -1 |}) as (H1 & H2 & H3);
          cbn; try assumption; try discriminate.
        now repeat split.
Qed.

Lemma extname_loop_dot (path : string) (n : nat) (st : Posix.ExtScan) :
  String.get n path = Some "."%char ->
  Posix.startDot st = (-1)%Z ->
  Posix.end_ st <> (-1)%Z ->
  Posix.extname_loop path (S n) st
  = Posix.extname_loop path n
      {| Posix.startDot := Z.of_nat n;
         Posix.startPart := Posix.startPart st;
         Posix.end_ := Posix.end_ st;
         Posix.matchedSlash := Posix.matchedSlash st;
         Posix.preDotState := Posix.preDotState st |}.
Proof.
  intros Hg Hd He. destruct st as [sd sp en ms pd]. cbn in Hd, He. subst sd.
  cbn [Posix.extname_loop]. rewrite Hg.
  change (Posix.isPathSeparator ".") with false.
  change (Ascii.eqb "." Posix.CHAR_DOT) with true. cbv zeta.
  cbn [Posix.startDot Posix.startPart Posix.end_ Posix.matchedSlash
         Posix.preDotState].
  apply Z.eqb_neq in He. rewrite He. reflexivity.
Qed.

Lemma extname_loop_front (path : string) (n : nat) (st : Posix.ExtScan) (c : ascii) :
  String.get n path = Some c ->
  Posix.isPathSeparator c = false ->
  Posix.startDot st <> (-1)%Z ->
  Posix.end_ st <> (-1)%Z ->
  exists st' : Posix.ExtScan,
    Posix.extname_loop path (S n) st = Posix.extname_loop path n st'
    /\ Posix.startDot st' = Posix.startDot st
    /\ Posix.end_ st' = Posix.end_ st
    /\ Posix.preDotState st' <> 0%Z.
Proof.
  intros Hg Hs Hd He. destruct st as [sd sp en ms pd]. cbn in Hd, He.
  cbn [Posix.extname_loop]. rewrite Hg, Hs. cbv zeta.
  cbn [Posix.startDot Posix.startPart Posix.end_ Posix.matchedSlash
         Posix.preDotState].
  apply Z.eqb_neq in He as He'. apply Z.eqb_neq in Hd as Hd'.
  rewrite He'.
  cbn [Posix.startDot Posix.startPart Posix.end_ Posix.matchedSlash
         Posix.preDotState].
  rewrite Hd'. cbn [negb].
  destruct (Ascii.eqb c Posix.CHAR_DOT).
  - destruct (pd =? 1)%Z eqn:E; cbn [negb]; eexists; (split; [reflexivity|]);
      cbn; repeat split; try discriminate.
    apply Z.eqb_eq in E. lia.
  - eexists. split; [reflexivity|]. cbn. repeat split. discriminate.
Qed.

(** [extname] returns the text from the last dot on when that text holds
    no further dot or separator and the dot follows a unit that is no
    separator. *)
Lemma extname_plain_extension (p e : string) :
  p <> "" ->
  Posix.endsWithSlash p = false ->
  e <> "" ->
  Js.includes e "." = false ->
  Js.includes e "/" = false ->
  Posix.extname (p ++ String "." e) = String "." e.
Proof.
  intros Hp Hslash He Hdot Hsep.
  set (path := p ++ String "." e).
  set (N := String.length p).
  set (M := String.length e).
  assert (HM : M <> 0) by (subst M; destruct e; [now elim He | discriminate]).
  assert (HN : N <> 0) by (subst N; destruct p; [now elim Hp | discriminate]).
  assert (Hlen : String.length path = S N + M).
  { subst path N M. rewrite str_length_append. cbn [String.length]. lia. }
  assert (Hge : forall i, String.get (S i + N) path = String.get i e).
  { intros i. exact (eq_sym (append_correct2 p (String "." e) (S i))). }
  assert (Hgd : String.get N path = Some "."%char).
  { exact (eq_sym (append_correct2 p (String "." e) 0)). }
  assert (Hgp : forall i, i < N -> String.get i path = String.get i p).
  { intros i Hi. subst path N. symmetry. now apply append_correct1. }
  set (st0 := {| Posix.startDot := -1; Posix.startPart := 0; Posix.end_ := -1;
                 Posix.matchedSlash := true; Posix.preDotState := 0 |}).
  assert (Hfinal :
            Posix.startDot (Posix.extname_loop path (String.length path) st0)
            = Z.of_nat N
            /\ Posix.end_ (Posix.extname_loop path (String.length path) st0)
               = Z.of_nat (S N + M)
            /\ Posix.preDotState (Posix.extname_loop path (String.length path) st0)
               <> 0%Z).
  { rewrite Hlen.
    rewrite extname_loop_plain_run; [| |reflexivity].
    2:{ intros i Hi.
        destruct (get_some e (i - S N)) as [c Hc]; [fold M; lia|].
        exists c. replace i with (S (i - S N) + N) by lia.
        rewrite Hge. split; [exact Hc|]. split.
        - exact (get_not_char "/" e Hsep _ _ Hc).
        - exact (get_not_char "." e Hdot _ _ Hc). }
    apply Nat.eqb_neq in HM as HM'. rewrite HM'.
    change (Posix.end_ st0 =? -1)%Z with true. cbv iota.
    rewrite (extname_loop_dot path N _ Hgd); [|reflexivity | cbn; lia].
    cbn [Posix.startDot Posix.startPart Posix.end_ Posix.matchedSlash
           Posix.preDotState].
    destruct N as [|N'] eqn:EN; [now elim HN|].
    destruct (get_last_some p Hp) as [c Hc].
    assert (Hc' : String.get N' path = Some c).
    { rewrite Hgp by lia.
      replace N' with (String.length p - 1) by (fold N; lia).
      exact Hc. }
    assert (Hcs : Posix.isPathSeparator c = false).
    { unfold Posix.endsWithSlash in Hslash. now rewrite Hc in Hslash. }
    match goal with
    | |- context [Posix.extname_loop path (S N') ?st] =>
        destruct (extname_loop_front path N' st c Hc' Hcs) as (st' & -> & H1 & H2 & H3);
          [cbn; lia | cbn; lia |]
    end.
    cbn in H1, H2.
    destruct (extname_loop_settled path N' st') as (H4 & H5 & H6);
      [rewrite H1; lia | rewrite H2; lia | exact H3 |].
    rewrite H4, H5, H1, H2. repeat split. exact H6. }
  destruct Hfinal as (Hs & Het & Hpd).
  unfold Posix.extname. fold path. fold st0. cbv zeta.
  rewrite Hs, Het.
  assert (H1 : (Z.of_nat N =? -1)%Z = false) by (apply Z.eqb_neq; lia).
  assert (H2 : (Z.of_nat (S N + M) =? -1)%Z = false) by (apply Z.eqb_neq; lia).
  assert (H3 : (Z.of_nat N =? Z.of_nat (S N + M) - 1)%Z = false)
    by (apply Z.eqb_neq; lia).
  apply Z.eqb_neq in Hpd.
  rewrite H1, H2, H3, Hpd, andb_false_r. cbn [orb andb].
  unfold Js.slice.
  replace (Z.to_nat (Z.of_nat N)) with (String.length p) by (fold N; lia).
  replace (Z.to_nat (Z.of_nat (S N + M) - Z.of_nat N))
    with (String.length (String "." e)) by (cbn [String.length]; fold M; lia).
  apply substring_suffix.
Qed.

(* ================================================================== *)
(** * The output path of ordinary inputs *)
(* ================================================================== *)

Lemma endsWithSlash_no_slash (s : string) :
  Js.includes s "/" = false -> Posix.endsWithSlash s = false.
Proof.
  intros H. unfold Posix.endsWithSlash.
  destruct (String.get (String.length s - 1) s) as [c|] eqn:E; [|reflexivity].
  exact (get_not_char "/" s H _ _ E).
Qed.

Lemma extname_of_input (pre stem e : string) :
  stem <> "" ->
  Posix.endsWithSlash stem = false ->
  e <> "" ->
  Js.includes e "." = false ->
  Js.includes e "/" = false ->
  Posix.extname (pre ++ stem ++ String "." e) = String "." e.
Proof.
  intros Hs Hslash He Hd Hsep.
  rewrite <- str_append_assoc.
  apply extname_plain_extension; try assumption.
  - destruct pre; destruct stem; try discriminate. now elim Hs.
  - now rewrite endsWithSlash_append.
Qed.

Lemma not_sfc (e : string) :
  e <> "vue" -> e <> "svelte" ->
  existsb (String.eqb (String "." e)) [".vue"; ".svelte"] = false.
Proof.
  intros H1 H2. cbn [existsb].
  change (String.eqb (String "." e) ".vue") with (String.eqb e "vue").
  change (String.eqb (String "." e) ".svelte") with (String.eqb e "svelte").
  apply String.eqb_neq in H1, H2. now rewrite H1, H2.
Qed.

(** X1: an input [root/stem.e] whose [stem] (directories and name) holds no
    dot and whose extension [e] is plain and is not that of a single-file
    component resolves to [stem.js]: the root is stripped and the
    extension replaced. *)
Theorem transformFilePath_ordinary :
  forall cwd root stem e : string,
    Js.includes root "/" = false ->
    stem <> "" ->
    Posix.endsWithSlash stem = false ->
    Js.includes stem "." = false ->
    e <> "" ->
    Js.includes e "." = false ->
    Js.includes e "/" = false ->
    e <> "vue" ->
    e <> "svelte" ->
    @transformFilePath (Posix.platform cwd) (root ++ "/" ++ stem ++ "." ++ e)
    = stem ++ ".js".
Proof.
  intros cwd root stem e Hroot Hs Hslash Hdots He Hed Hes Hv Hsv.
  unfold transformFilePath. cbn [path_extname Posix.platform].
  change ("." ++ e) with (String "." e).
  rewrite <- (str_append_assoc root "/" (stem ++ String "." e)).
  rewrite (extname_of_input (root ++ "/") stem e Hs Hslash He Hed Hes).
  rewrite (not_sfc e Hv Hsv).
  rewrite str_append_assoc, (replace_first_segment_root root _ Hroot).
  now apply replace_dot_suffix.
Qed.

(** X1 on [src/util/math.ts]. *)
Lemma transformFilePath_ordinary_math :
  @transformFilePath (Posix.platform "/home/user/project") "src/util/math.ts"
  = "util/math.js".
Proof.
  apply (transformFilePath_ordinary "/home/user/project" "src" "util/math" "ts");
    first [discriminate | vm_compute; reflexivity].
Defined.

(** X2: a single-file component [root/stem.vue] or [root/stem.svelte]
    keeps its extension and gets [.js] appended, whatever dots its name
    holds. *)
Theorem transformFilePath_single_file_component :
  forall cwd root stem e : string,
    Js.includes root "/" = false ->
    stem <> "" ->
    Posix.endsWithSlash stem = false ->
    In e ["vue"; "svelte"] ->
    @transformFilePath (Posix.platform cwd) (root ++ "/" ++ stem ++ "." ++ e)
    = stem ++ "." ++ e ++ ".js".
Proof.
  intros cwd root stem e Hroot Hs Hslash Hin.
  assert (He : e <> "" /\ Js.includes e "." = false /\ Js.includes e "/" = false
               /\ existsb (String.eqb (String "." e)) [".vue"; ".svelte"] = true).
  { destruct Hin as [<-|[<-|[]]]; repeat split; discriminate. }
  destruct He as (He & Hed & Hes & Hsfc).
  unfold transformFilePath. cbn [path_extname Posix.platform].
  change ("." ++ e) with (String "." e).
  change ("." ++ e ++ ".js") with (String "." (e ++ ".js")).
  rewrite <- (str_append_assoc root "/" (stem ++ String "." e)).
  rewrite (extname_of_input (root ++ "/") stem e Hs Hslash He Hed Hes), Hsfc.
  rewrite str_append_assoc, (replace_first_segment_root root _ Hroot).
  now rewrite str_append_assoc.
Qed.

(** X2 on [src/Comp.vue]. *)
Lemma transformFilePath_single_file_component_Comp :
  @transformFilePath (Posix.platform "/home/user/project") "src/Comp.vue"
  = "Comp.vue.js".
Proof.
  apply (transformFilePath_single_file_component "/home/user/project"
           "src" "Comp" "vue");
    first [discriminate | vm_compute; reflexivity | now left].
Defined.

(** X3: an input without directory, [stem.e], whose [stem] holds no dot
    and whose extension [e] is plain and is not that of a single-file
    component, has no root to strip: it resolves to [stem.js]. *)
Theorem transformFilePath_top_level :
  forall cwd stem e : string,
    stem <> "" ->
    Js.includes stem "/" = false ->
    Js.includes stem "." = false ->
    e <> "" ->
    Js.includes e "." = false ->
    Js.includes e "/" = false ->
    e <> "vue" ->
    e <> "svelte" ->
    @transformFilePath (Posix.platform cwd) (stem ++ "." ++ e) = stem ++ ".js".
Proof.
  intros cwd stem e Hs Hslash Hdots He Hed Hes Hv Hsv.
  unfold transformFilePath. cbn [path_extname Posix.platform].
  change ("." ++ e) with (String "." e).
  pose proof (extname_of_input "" stem e Hs (endsWithSlash_no_slash _ Hslash)
                He Hed Hes) as Hx.
  change ("" ++ stem ++ String "." e) with (stem ++ String "." e) in Hx.
  rewrite Hx, (not_sfc e Hv Hsv).
  rewrite replace_first_segment_no_slash.
  - now apply replace_dot_suffix.
  - change (String "." e) with ("." ++ e).
    rewrite !includes_char_app, Hslash, Hes. reflexivity.
Qed.

(** X3 on [index.ts]. *)
Lemma transformFilePath_top_level_index :
  @transformFilePath (Posix.platform "/home/user/project") "index.ts" = "index.js".
Proof.
  apply (transformFilePath_top_level "/home/user/project" "index" "ts");
    first [discriminate | vm_compute; reflexivity].
Defined.

(* ================================================================== *)
(** * More on the default classifier *)
(* ================================================================== *)

Lemma includes_without_dot (id marker : string) :
  Js.includes id "." = false ->
  Js.includes marker "." = true ->
  Js.includes id marker = false.
Proof.
  intros Hid Hm. destruct (Js.includes id marker) eqn:E; [|reflexivity].
  now rewrite (includes_trans id marker "." E Hm) in Hid.
Qed.

(** X4: the default classifier looks for the asset and JSON markers
    anywhere in the module id, not only at its end: an id that holds one of
    them, followed by a query or by anything else, gets [false]. *)
Theorem externalClassifier_marker_anywhere :
  forall (P : Platform) (ownerFile front marker back : string)
         (importer : option string) (isResolved : option bool),
    In marker assetSuffixes ->
    externalClassifier None ownerFile (front ++ marker ++ back) importer isResolved
    = Some false.
Proof.
  intros P ownerFile front marker back importer isResolved Hin.
  pose proof (includes_infix front marker back) as Hs.
  unfold externalClassifier, isJson, isAsset.
  unfold assetSuffixes in Hin. cbn [In] in Hin.
  destruct Hin as [<-|[<-|[<-|[<-|[<-|[<-|[]]]]]]];
    rewrite Hs; now rewrite ?orb_true_r.
Qed.

(** X4 on a stylesheet imported with a query. *)
Lemma externalClassifier_marker_anywhere_inline :
  @externalClassifier (Posix.platform "/home/user/project") None "src/a.ts"
    "./theme.css?inline" (Some "/home/user/project/src/a.ts") (Some false)
  = Some false.
Proof.
  apply (externalClassifier_marker_anywhere (Posix.platform "/home/user/project")
           "src/a.ts" "./theme" ".css" "?inline").
  now left.
Defined.

(** X5: the ids of Vue's sub-compilations, which hold [?vue] and [lang.]
    in either order, get [false] from the default classifier. *)
Theorem externalClassifier_vue_temp_file :
  forall (P : Platform) (ownerFile a b c : string)
         (importer : option string) (isResolved : option bool),
    isVueTempFile (a ++ "?vue" ++ b ++ "lang." ++ c) = true
    /\ isVueTempFile (a ++ "lang." ++ b ++ "?vue" ++ c) = true
    /\ externalClassifier None ownerFile (a ++ "?vue" ++ b ++ "lang." ++ c)
         importer isResolved = Some false
    /\ externalClassifier None ownerFile (a ++ "lang." ++ b ++ "?vue" ++ c)
         importer isResolved = Some false.
Proof.
  intros P ownerFile a b c importer isResolved.
  assert (H1 : isVueTempFile (a ++ "?vue" ++ b ++ "lang." ++ c) = true).
  { unfold isVueTempFile. rewrite includes_infix.
    rewrite <- (str_append_assoc "?vue" b), <- (str_append_assoc a).
    now rewrite includes_infix. }
  assert (H2 : isVueTempFile (a ++ "lang." ++ b ++ "?vue" ++ c) = true).
  { unfold isVueTempFile. rewrite (includes_infix a "lang.").
    rewrite <- (str_append_assoc "lang." b), <- (str_append_assoc a).
    now rewrite includes_infix. }
  repeat split; try assumption; unfold externalClassifier;
    rewrite ?H1, ?H2; now rewrite ?orb_true_r.
Qed.

(** X6: a module id without any dot (a bare package name or a path inside
    a package) that is not the input file itself gets [true] from the
    default classifier. *)
Theorem externalClassifier_bare_id :
  forall (P : Platform) (ownerFile id : string)
         (importer : option string) (isResolved : option bool),
    Js.includes id "." = false ->
    path_normalize id <> path_resolve [process_cwd; ownerFile] ->
    externalClassifier None ownerFile id importer isResolved = Some true.
Proof.
  intros P ownerFile id importer isResolved Hdot Hself.
  unfold externalClassifier, isJson, isAsset, isVueTempFile.
  rewrite (includes_without_dot id ".json" Hdot eq_refl),
          (includes_without_dot id ".sass" Hdot eq_refl),
          (includes_without_dot id ".scss" Hdot eq_refl),
          (includes_without_dot id ".less" Hdot eq_refl),
          (includes_without_dot id ".css" Hdot eq_refl),
          (includes_without_dot id ".svg" Hdot eq_refl),
          (includes_without_dot id "lang." Hdot eq_refl).
  apply String.eqb_neq in Hself. rewrite Hself.
  now rewrite andb_false_r.
Qed.

(** X6 on the import of [lodash/fp]. *)
Lemma externalClassifier_bare_id_lodash :
  @externalClassifier (Posix.platform "/home/user/project") None "src/a.ts"
    "lodash/fp" (Some "/home/user/project/src/a.ts") (Some false)
  = Some true.
Proof.
  apply (externalClassifier_bare_id (Posix.platform "/home/user/project")
           "src/a.ts" "lodash/fp").
  - vm_compute; reflexivity.
  - vm_compute. discriminate.
Defined.

(* ================================================================== *)
(** * More on objects and on the synthesized configuration *)
(* ================================================================== *)

Lemma obj_get_not_key (k : string) (o : obj) :
  ~ In k (keys o) -> obj_get k o = None.
Proof.
  induction o as [|[k' v] o IH]; intros H; cbn [obj_get]; [reflexivity|].
  cbn [keys map fst In] in H.
  destruct (String.eqb k k') eqn:E.
  - apply String.eqb_eq in E. subst k'. elim H. now left.
  - apply IH. intros Hin. apply H. now right.
Qed.

Lemma obj_get_in_keys (k : string) (v : value) (o : obj) :
  obj_get k o = Some v -> In k (keys o).
Proof.
  induction o as [|[k' v'] o IH]; cbn [obj_get]; intros H; [discriminate|].
  cbn [keys map fst In].
  destruct (String.eqb k k') eqn:E.
  - apply String.eqb_eq in E. now left.
  - right. now apply IH.
Qed.

Lemma keys_obj_set (k : string) (v : value) (o : obj) :
  keys (obj_set k v o) = if in_dec string_dec k (keys o) then keys o
                         else (keys o ++ [k])%list.
Proof.
  induction o as [|[k' v'] o IH]; cbn [obj_set keys map fst].
  - now destruct (in_dec string_dec k []).
  - destruct (String.eqb k k') eqn:E.
    + apply String.eqb_eq in E. subst k'. cbn [map fst].
      destruct (in_dec string_dec k (k :: map fst o)) as [_|n]; [reflexivity|].
      elim n. now left.
    + cbn [map fst]. fold (keys (obj_set k v o)). rewrite IH. fold (keys o).
      apply String.eqb_neq in E.
      destruct (in_dec string_dec k (keys o)) as [i|n];
        destruct (in_dec string_dec k (k' :: keys o)) as [i'|n'];
        try reflexivity.
      * elim n'. now right.
      * destruct i' as [->|i']; [now elim E | now elim n].
Qed.

(** Writing properties keeps the names of an object distinct. *)
Lemma NoDup_keys_obj_set (k : string) (v : value) (o : obj) :
  NoDup (keys o) -> NoDup (keys (obj_set k v o)).
Proof.
  intros H. rewrite keys_obj_set.
  destruct (in_dec string_dec k (keys o)) as [i|n]; [exact H|].
  apply NoDup_app; [exact H | repeat constructor; intros [] |].
  intros x Hx [<-|[]]. now apply n.
Qed.

(** The spread [{...acc, ...o}]: a property of [o] wins, the others stay. *)
Lemma obj_get_spread (k : string) :
  forall o acc : obj,
    NoDup (keys o) ->
    obj_get k (fold_left (fun acc' kv => obj_set (fst kv) (snd kv) acc') o acc)
    = match obj_get k o with
      | Some v => Some v
      | None => obj_get k acc
      end.
Proof.
  induction o as [|[k0 v0] o IH]; intros acc Hnd; [reflexivity|].
  cbn [keys map fst] in Hnd. apply NoDup_cons_iff in Hnd as [Hnot Hnd].
  cbn [fold_left fst snd obj_get]. rewrite (IH _ Hnd).
  destruct (String.eqb k k0) eqn:E.
  - apply String.eqb_eq in E. subst k0.
    now rewrite (obj_get_not_key k o Hnot), obj_get_set_same.
  - now rewrite (obj_get_set_other k k0 v0 acc E).
Qed.

Lemma lastPluginHooks_fold (hooks : obj) (k : string) :
  forall (ks : list string) (acc : obj),
    obj_get k
      (fold_left
         (fun acc' cur =>
            match obj_get cur hooks with
            | Some (VFun f) => obj_set cur (VFun f) acc'
            | _ => acc'
            end) ks acc)
    = match obj_get k hooks with
      | Some (VFun f) =>
          if in_dec string_dec k ks then Some (VFun f) else obj_get k acc
      | _ => obj_get k acc
      end.
Proof.
  induction ks as [|cur ks IH]; intros acc.
  - cbn [fold_left]. destruct (obj_get k hooks) as [[]|]; reflexivity.
  - cbn [fold_left]. rewrite IH.
    destruct (String.eqb k cur) eqn:E.
    + apply String.eqb_eq in E. subst cur.
      destruct (obj_get k hooks) as [[| | | | | |f| |]|]; try reflexivity.
      rewrite obj_get_set_same.
      destruct (in_dec string_dec k ks) as [i0|n0];
        destruct (in_dec string_dec k (k :: ks)) as [i1|n1];
        try reflexivity; elim n1; now left.
    + assert (Hacc : obj_get k
                (match obj_get cur hooks with
                 | Some (VFun f) => obj_set cur (VFun f) acc
                 | _ => acc
                 end) = obj_get k acc).
      { destruct (obj_get cur hooks) as [[| | | | | |f| |]|]; try reflexivity.
        now apply obj_get_set_other. }
      rewrite Hacc. apply String.eqb_neq in E.
      destruct (obj_get k hooks) as [[| | | | | |f| |]|]; try reflexivity.
      destruct (in_dec string_dec k ks) as [i|n];
        destruct (in_dec string_dec k (cur :: ks)) as [i'|n']; try reflexivity.
      * elim n'. now right.
      * destruct i' as [->|i']; [now elim E | now elim n].
Qed.

(** [lastPluginHooks] keeps the function-valued entries and only them. *)
Lemma lastPluginHooks_get (hooks : obj) (k : string) :
  obj_get k (lastPluginHooks hooks)
  = match obj_get k hooks with
    | Some (VFun f) => Some (VFun f)
    | _ => None
    end.
Proof.
  unfold lastPluginHooks. rewrite lastPluginHooks_fold.
  destruct (obj_get k hooks) as [[| | | | | |f| |]|] eqn:E; try reflexivity.
  destruct (in_dec string_dec k (keys hooks)) as [_|n]; [reflexivity|].
  elim n. exact (obj_get_in_keys _ _ _ E).
Qed.

Lemma lastPluginHooks_NoDup (hooks : obj) : NoDup (keys (lastPluginHooks hooks)).
Proof.
  unfold lastPluginHooks.
  assert (H : forall ks acc, NoDup (keys acc) ->
              NoDup (keys (fold_left
                (fun acc' cur =>
                   match obj_get cur hooks with
                   | Some (VFun f) => obj_set cur (VFun f) acc'
                   | _ => acc'
                   end) ks acc))).
  { induction ks as [|cur ks IH]; intros acc Hacc; [exact Hacc|].
    cbn [fold_left]. apply IH.
    destruct (obj_get cur hooks) as [[| | | | | |f| |]|]; try exact Hacc.
    now apply NoDup_keys_obj_set. }
  apply H. constructor.
Qed.

(** X7: the synthetic plugin that [createBuildConfig] puts in front of the
    caller's plugins holds every function-valued entry of [pluginHooks]
    and drops the other entries; [name] and [enforce] are the built-in
    ones unless a function-valued hook takes their name.  The caller's
    plugins follow in their order. *)
Theorem createBuildConfig_plugins :
  forall (P : Platform) (options : BuildFilesOptions)
         (fileRelativePath : string) (o : CreateBuildConfigOptions),
    exists synthetic : obj,
      obj_get "plugins" (createBuildConfig options fileRelativePath o)
      = Some (VArr (VObj synthetic :: callerPlugins options))
      /\ forall k : string,
           obj_get k synthetic
           = match obj_get k (match pluginHooks options with
                              | Some h => h
                              | None => []
                              end) with
             | Some (VFun f) => Some (VFun f)
             | _ => obj_get k [ ("name", VStr "vite:build-file-transform");
                                ("enforce", VStr "pre") ]
             end.
Proof.
  intros P options file o.
  eexists. split.
  - unfold createBuildConfig, object. cbn [fold_left].
    unfold add_member at 1 2 3 4.
    rewrite !obj_get_set_other by reflexivity.
    unfold add_member at 1. apply obj_get_set_same.
  - intros k. unfold object. cbn [fold_left].
    unfold add_member at 1. rewrite obj_get_spread by apply lastPluginHooks_NoDup.
    rewrite lastPluginHooks_get.
    destruct (obj_get k _) as [[| | | | | |f| |]|]; reflexivity.
Qed.

(** X8: whatever [viteConfig] holds, the configuration handed to the
    bundler has [mode: 'production'], [configFile: false], [logLevel:
    'error'] and the synthesized [build]: the literal writes them after the
    spread of [viteConfig]. *)
Theorem createBuildConfig_forced :
  forall (P : Platform) (options : BuildFilesOptions)
         (fileRelativePath : string) (o : CreateBuildConfigOptions),
    let config := createBuildConfig options fileRelativePath o in
    obj_get "mode" config = Some (VStr "production")
    /\ obj_get "configFile" config = Some (VBool false)
    /\ obj_get "logLevel" config = Some (VStr "error")
    /\ obj_get "build" config = Some (VObj (buildConfig options fileRelativePath o)).
Proof.
  intros P options file o config. subst config.
  unfold createBuildConfig, object. cbn [fold_left].
  repeat split.
  - unfold add_member at 1 2 3 4.
    rewrite !obj_get_set_other by reflexivity. apply obj_get_set_same.
  - unfold add_member at 1 2 3.
    rewrite !obj_get_set_other by reflexivity. apply obj_get_set_same.
  - unfold add_member at 1 2.
    rewrite !obj_get_set_other by reflexivity. apply obj_get_set_same.
  - unfold add_member at 1. apply obj_get_set_same.
Qed.

(** X7 on a caller with two hooks and one entry that is no function. *)
Lemma createBuildConfig_plugins_hooked :
  exists synthetic : obj,
    obj_get "plugins"
      (@createBuildConfig (Posix.platform "/home/user/project") Hooked.options
         "src/a.ts" {| outputDir := "es"; outputFormat := "es" |})
    = Some (VArr [VObj synthetic; VObj [("name", VStr "caller-plugin")]])
    /\ obj_get "name" synthetic = Some (VStr "vite:build-file-transform")
    /\ obj_get "transform" synthetic = Some (VFun (FnOpaque "transform"))
    /\ obj_get "apply" synthetic = None.
Proof.
  destruct (createBuildConfig_plugins (Posix.platform "/home/user/project")
              Hooked.options "src/a.ts"
              {| outputDir := "es"; outputFormat := "es" |})
    as (synthetic & Hp & Hk).
  exists synthetic. split; [exact Hp|].
  split; [exact (Hk "name")|]. split; [exact (Hk "transform") | exact (Hk "apply")].
Defined.

(** X8 on a caller whose [viteConfig] asks for [mode: 'development']. *)
Lemma createBuildConfig_forced_hooked :
  obj_get "mode"
    (@createBuildConfig (Posix.platform "/home/user/project") Hooked.options
       "src/a.ts" {| outputDir := "es"; outputFormat := "es" |})
  = Some (VStr "production").
Proof.
  exact (proj1 (createBuildConfig_forced (Posix.platform "/home/user/project")
                  Hooked.options "src/a.ts"
                  {| outputDir := "es"; outputFormat := "es" |})).
Defined.

(** X9: [rollupOptionsOutput] wins over every built-in field of the output
    entry but [dir]; the fields it does not set keep their built-in
    value. *)
Theorem outputEntry_overrides :
  forall (P : Platform) (options : BuildFilesOptions)
         (fileRelativePath : string) (o : CreateBuildConfigOptions) (k : string),
    let caller := match lastRollupOptionsOutput options fileRelativePath with
                  | Some x => x
                  | None => []
                  end in
    NoDup (keys caller) ->
    k <> "dir" ->
    obj_get k (outputEntry options fileRelativePath o)
    = match obj_get k caller with
      | Some v => Some v
      | None =>
          obj_get k
            [ ("entryFileNames",
               VStr (path_basename (transformFilePath fileRelativePath)));
              ("format", VStr (outputFormat o));
              ("indent", VBool false);
              ("assetFileNames", VStr "[name].[ext]");
              ("inlineDynamicImports", VBool true) ]
      end.
Proof.
  intros P options file o k caller Hnd Hk.
  apply String.eqb_neq in Hk.
  unfold outputEntry, object. cbn [fold_left].
  unfold add_member at 1. rewrite (obj_get_set_other _ _ _ _ Hk).
  subst caller.
  destruct (lastRollupOptionsOutput options file) as [oo|].
  - unfold add_member at 1. now rewrite (obj_get_spread k oo _ Hnd).
  - reflexivity.
Qed.

(** X9 on [rollupOptionsOutput: { format: 'umd', name: 'Lib' }]: the
    entry of the [cjs] unit is built as [umd]. *)
Lemma outputEntry_overrides_umd :
  obj_get "format"
    (@outputEntry (Posix.platform "/home/user/project") Umd.options "src/a.ts"
       {| outputDir := "lib"; outputFormat := "cjs" |})
  = Some (VStr "umd")
  /\ obj_get "indent"
       (@outputEntry (Posix.platform "/home/user/project") Umd.options "src/a.ts"
          {| outputDir := "lib"; outputFormat := "cjs" |})
     = Some (VBool false).
Proof.
  split.
  - apply (outputEntry_overrides (Posix.platform "/home/user/project")
             Umd.options "src/a.ts" {| outputDir := "lib"; outputFormat := "cjs" |}
             "format").
    + repeat constructor; cbn; intuition discriminate.
    + discriminate.
  - apply (outputEntry_overrides (Posix.platform "/home/user/project")
             Umd.options "src/a.ts" {| outputDir := "lib"; outputFormat := "cjs" |}
             "indent").
    + repeat constructor; cbn; intuition discriminate.
    + discriminate.
Defined.

(** What [mergeConfig] leaves under a key, for overrides with distinct
    names. *)
Lemma mergeProps_get (merge : value -> value -> value) (k : string) :
  forall overrides merged : obj,
    NoDup (keys overrides) ->
    obj_get k (Vite.mergeProps merge merged overrides)
    = match obj_get k overrides with
      | None => obj_get k merged
      | Some v =>
          if isNullish v then obj_get k merged
          else match obj_get k merged with
               | None => Some v
               | Some existing =>
                   if isNullish existing then Some v else Some (merge existing v)
               end
      end.
Proof.
  induction overrides as [|[k0 v0] rest IH]; intros merged Hnd; [reflexivity|].
  cbn [keys map fst] in Hnd. apply NoDup_cons_iff in Hnd as [Hnot Hnd].
  cbn [Vite.mergeProps obj_get]. rewrite (IH _ Hnd).
  destruct (String.eqb k k0) eqn:E.
  - apply String.eqb_eq in E. subst k0. rewrite (obj_get_not_key k rest Hnot).
    destruct (isNullish v0); [reflexivity|].
    destruct (obj_get k merged) as [existing|];
      [destruct (isNullish existing)|]; apply obj_get_set_same.
  - assert (Hm : obj_get k
               (if isNullish v0 then merged
                else match obj_get k0 merged with
                     | None => obj_set k0 v0 merged
                     | Some existing =>
                         if isNullish existing then obj_set k0 v0 merged
                         else obj_set k0 (merge existing v0) merged
                     end) = obj_get k merged).
    { destruct (isNullish v0); [reflexivity|].
      destruct (obj_get k0 merged) as [existing|];
        [destruct (isNullish existing)|]; now apply obj_get_set_other. }
    now rewrite Hm.
Qed.

(** X10: [buildOptions] is merged over the built-in build settings: a
    setting it does not name keeps its built-in value, and for [assetsDir],
    [cssCodeSplit], [emptyOutDir] and [minify] a value that is no array
    replaces the built-in one, unless it is [null] or [undefined], which
    leave the built-in value. *)
Theorem buildConfig_overrides :
  forall (P : Platform) (options : BuildFilesOptions)
         (fileRelativePath : string) (o : CreateBuildConfigOptions)
         (overrides : obj),
    lastBuildOptions options fileRelativePath = Some overrides ->
    NoDup (keys overrides) ->
    (forall k : string,
        obj_get k overrides = None ->
        obj_get k (buildConfig options fileRelativePath o)
        = obj_get k (defaultBuildConfig options fileRelativePath o))
    /\ (forall (k : string) (v : value),
           In k ["assetsDir"; "cssCodeSplit"; "emptyOutDir"; "minify"] ->
           obj_get k overrides = Some v ->
           isArray v = false ->
           obj_get k (buildConfig options fileRelativePath o)
           = if isNullish v
             then obj_get k (defaultBuildConfig options fileRelativePath o)
             else Some v).
Proof.
  intros P options file o overrides Hbo Hnd.
  unfold buildConfig, Vite.mergeConfig, Vite.mergeConfigRecursively. rewrite Hbo.
  split.
  - intros k Hk. now rewrite (mergeProps_get _ k overrides _ Hnd), Hk.
  - intros k v Hin Hk Hv.
    rewrite (mergeProps_get _ k overrides _ Hnd), Hk.
    destruct (isNullish v) eqn:Hn; [reflexivity|].
    assert (Hd : exists e, obj_get k (defaultBuildConfig options file o) = Some e
                           /\ isNullish e = false
                           /\ Vite.mergeValue e v = v).
    { cbn [In] in Hin.
      destruct Hin as [<-|[<-|[<-|[<-|[]]]]]; eexists;
        (split; [reflexivity|]); (split; [reflexivity|]);
        destruct v; try discriminate; reflexivity. }
    destruct Hd as (e & -> & -> & ->). reflexivity.
Qed.

(** X10 on [buildOptions: { minify: true, rollupOptions: { treeshake:
    false } }]: minification is switched on again, [emptyOutDir] stays
    [false]. *)
Lemma buildConfig_overrides_minify :
  obj_get "minify"
    (@buildConfig (Posix.platform "/home/user/project") Override.options
       "src/util/math.ts" Override.unit_)
  = Some (VBool true)
  /\ obj_get "emptyOutDir"
       (@buildConfig (Posix.platform "/home/user/project") Override.options
          "src/util/math.ts" Override.unit_)
     = Some (VBool false).
Proof.
  destruct (buildConfig_overrides (Posix.platform "/home/user/project")
              Override.options "src/util/math.ts" Override.unit_
              [("minify", VBool true);
               ("rollupOptions", VObj [("treeshake", VBool false)])])
    as [Hkeep Hset].
  - reflexivity.
  - repeat constructor; cbn; intuition discriminate.
  - split.
    + apply (Hset "minify" (VBool true)); [cbn; tauto | reflexivity | reflexivity].
    + rewrite (Hkeep "emptyOutDir"); reflexivity.
Defined.

(* ================================================================== *)
(** * More on the driver and on a batch *)
(* ================================================================== *)

Lemma promiseAll_rejected {A : Type} (ps : list (Outcome A)) :
  isRejected (promiseAll ps) = existsb isRejected ps.
Proof.
  induction ps as [|[a|] ps IH]; cbn [promiseAll existsb isRejected orb];
    [reflexivity | | reflexivity].
  rewrite <- IH. now destruct (promiseAll ps).
Qed.

Lemma existsb_map_compose {A B : Type} (p : B -> bool) (g : A -> B) (l : list A) :
  existsb p (map g l) = existsb (fun x => p (g x)) l.
Proof. induction l as [|x l IH]; cbn [map existsb]; [reflexivity | now rewrite IH]. Qed.

Lemma lastBuild_rejected (P : Platform) (build : obj -> Outcome BuildOutput)
    (options : BuildFilesOptions) (f : string) (u : CreateBuildConfigOptions) :
  isRejected (lastBuild build options f u)
  = isRejected (build (createBuildConfig options f u)).
Proof. unfold lastBuild. now destruct (build _). Qed.

(** X11: a file's unit succeeds exactly when the bundler resolves for
    every one of its formats; otherwise [transformFile] is rejected and
    neither counts nor reports the file. *)
Theorem fileSucceeds_iff :
  forall (P : Platform) (build : obj -> Outcome BuildOutput)
         (options : BuildFilesOptions) (fileRelativePath : string),
    (fileSucceeds build options fileRelativePath = true
     <-> forall u, In u (buildUnits options) ->
                   build (createBuildConfig options fileRelativePath u) <> Rejected)
    /\ (forall s : ProcessState,
           fileSucceeds build options fileRelativePath = false ->
           transformFile build fileRelativePath options s = (Rejected, s)).
Proof.
  intros P build options f. split.
  - unfold fileSucceeds, formatBuilds.
    rewrite promiseAll_rejected, negb_true_iff, existsb_map_compose.
    rewrite <- not_true_iff_false, existsb_exists.
    split.
    + intros H u Hu Hr. apply H. exists u. split; [exact Hu|].
      now rewrite lastBuild_rejected, Hr.
    + intros H [u [Hu Hr]]. apply (H u Hu).
      rewrite lastBuild_rejected in Hr. now destruct (build _).
  - intros s H. rewrite transformFile_run. now rewrite H.
Qed.

(** X11 on the three-file scenario: [src/b.ts], whose build throws, is
    rejected and leaves the state as it was. *)
Lemma fileSucceeds_iff_b_ts :
  @fileSucceeds ThreeFiles.platform ThreeFiles.build ThreeFiles.options
    "src/b.ts" = false
  /\ @transformFile ThreeFiles.platform ThreeFiles.build "src/b.ts"
       ThreeFiles.options ThreeFiles.start
     = (Rejected, ThreeFiles.start).
Proof.
  split; [vm_compute; reflexivity|].
  apply (proj2 (fileSucceeds_iff ThreeFiles.platform ThreeFiles.build
                  ThreeFiles.options "src/b.ts")).
  vm_compute; reflexivity.
Defined.

(** X12: with an empty [formats] list the bundler is never asked:
    [Promise.all([])] resolves, and every file is counted and reported as
    built, whatever the bundler would have done. *)
Theorem transformFile_no_formats :
  forall (P : Platform) (build : obj -> Outcome BuildOutput)
         (options : BuildFilesOptions) (fileRelativePath : string)
         (s : ProcessState),
    formats options = Some [] ->
    transformFile build fileRelativePath options s
    = (Fulfilled fileRelativePath,
       {| incrementCount := incrementCount s + 1;
          trace := (trace s
                    ++ (if singleFileBuildSuccessCallback options
                        then [SingleFileBuildSuccess (incrementCount s + 1)
                                fileRelativePath]
                        else []))%list |}).
Proof.
  intros P build options f s H.
  rewrite transformFile_run.
  unfold fileSucceeds, formatBuilds, buildUnits, formatsOf. rewrite H.
  reflexivity.
Qed.

(** X12 with a bundler that always fails. *)
Lemma transformFile_no_formats_rejecting :
  @transformFile (Posix.platform "/home/user/project") NoFormats.build
    "src/a.ts" NoFormats.options {| incrementCount := 0; trace := [] |}
  = (Fulfilled "src/a.ts",
     {| incrementCount := 1; trace := [SingleFileBuildSuccess 1 "src/a.ts"] |}).
Proof.
  exact (transformFile_no_formats (Posix.platform "/home/user/project")
           NoFormats.build NoFormats.options "src/a.ts"
           {| incrementCount := 0; trace := [] |} eq_refl).
Defined.


Lemma existsb_negb_length {A : Type} (p : A -> bool) (l : list A) :
  existsb (fun x => negb (p x)) l
  = (List.length (filter p l) <? List.length l)%nat.
Proof.
  induction l as [|x l IH]; [reflexivity|].
  cbn [existsb filter]. pose proof (filter_length_le p l) as Hle.
  destruct (p x); cbn [negb orb List.length].
  - exact IH.
  - symmetry. apply Nat.ltb_lt. lia.
Qed.




(** X14: the count given to the batch-end callback never exceeds the count
    given to the batch-start callback, and the two agree exactly when no
    diagnostic line is written. *)
Theorem buildFiles_counts_agree :
  forall (P : Platform) (build : obj -> Outcome BuildOutput)
         (fg_sync : list string -> list string -> list string)
         (completionOrder : list string -> list string)
         (options : BuildFilesOptions) (s : ProcessState),
    (forall l, Permutation (completionOrder l) l) ->
    startBuild options = true ->
    endBuild options = true ->
    let total := List.length (srcFilePaths fg_sync options) in
    let built := List.length (filter (fileSucceeds build options)
                                     (srcFilePaths fg_sync options)) in
    exists events : list Event,
      trace (snd (buildFiles build fg_sync completionOrder options s))
      = (trace s ++ events)%list
      /\ In (StartBuild total) events
      /\ In (EndBuild built) events
      /\ built <= total
      /\ (built = total <-> ~ In (ConsoleErrorRed partialErrorMessage) events).
Proof.
  intros P build fg_sync completionOrder options s Hperm Hs He total built.
  exists (batchEvents build fg_sync completionOrder options).
  pose proof (Hperm (srcFilePaths fg_sync options)) as Hp.
  pose proof (filter_length_le (fileSucceeds build options)
                (srcFilePaths fg_sync options)) as Hle.
  fold built in Hle. fold total in Hle.
  split; [now rewrite buildFiles_run|].
  rewrite !batchEvents_In. cbv zeta.
  rewrite (existsb_Permutation _ _ _ Hp), existsb_negb_length.
  rewrite (filter_length_Permutation _ _ _ Hp).
  fold built. fold total.
  split; [left; now split|].
  split; [right; right; right; now split|].
  split; [exact Hle|].
  split.
  - intros Heq [[_ H]|[[_ H]|[[H _]|[_ H]]]]; try discriminate.
    + apply numbered_In in H as (k & f & Hk & _). discriminate.
    + apply Nat.ltb_lt in H. lia.
  - intros H. destruct (Nat.eq_dec built total) as [e|n]; [exact e|].
    elim H. right. right. left. split; [|reflexivity].
    apply Nat.ltb_lt. lia.
Qed.

(** X14 on the three-file scenario: 2 of 3, and the diagnostic line. *)
Lemma buildFiles_counts_agree_three_files :
  exists events : list Event,
    trace (snd (@buildFiles ThreeFiles.platform ThreeFiles.build ThreeFiles.glob
                  ThreeFiles.order ThreeFiles.options ThreeFiles.start))
    = events
    /\ In (StartBuild 3) events
    /\ In (EndBuild 2) events
    /\ In (ConsoleErrorRed partialErrorMessage) events.
Proof.
  destruct (buildFiles_counts_agree ThreeFiles.platform ThreeFiles.build
              ThreeFiles.glob ThreeFiles.order ThreeFiles.options
              ThreeFiles.start
              (fun l => Permutation_sym (Permutation_rev l)) eq_refl eq_refl)
    as (events & Ht & H1 & H2 & _ & _).
  exists events. split; [exact Ht|]. split; [exact H1|].
  split; [exact H2|].
  change (trace ThreeFiles.start ++ events)%list with events in Ht.
  rewrite <- Ht. vm_compute. right. right. right. left. reflexivity.
Defined.

(** X15: a batch that finds no file calls the bundler for nothing, writes
    no diagnostic line, and tells both callbacks the count 0. *)
Theorem buildFiles_no_files :
  forall (P : Platform) (build : obj -> Outcome BuildOutput)
         (fg_sync : list string -> list string -> list string)
         (completionOrder : list string -> list string)
         (options : BuildFilesOptions) (s : ProcessState),
    (forall l, Permutation (completionOrder l) l) ->
    srcFilePaths fg_sync options = [] ->
    buildFiles build fg_sync completionOrder options s
    = (tt,
       {| incrementCount := 0;
          trace := (trace s
                    ++ (if startBuild options then [StartBuild 0] else [])
                    ++ (if endBuild options then [EndBuild 0] else []))%list |}).
Proof.
  intros P build fg_sync completionOrder options s Hperm Hnil.
  rewrite buildFiles_run. unfold batchEvents. cbv zeta. rewrite Hnil.
  assert (Hco : completionOrder [] = []).
  { apply Permutation_nil, Permutation_sym, Hperm. }
  rewrite Hco. cbn [filter existsb List.length numbered].
  now destruct (singleFileBuildSuccessCallback options).
Qed.

(** X15 with a glob that matches nothing. *)
Lemma buildFiles_no_files_empty_glob :
  @buildFiles (Posix.platform "/home/user/project") NoFormats.build
    (fun _ _ => []) (fun l => l) NoFormats.options
    {| incrementCount := 4; trace := [] |}
  = (tt, {| incrementCount := 0; trace := [StartBuild 0; EndBuild 0] |}).
Proof.
  exact (buildFiles_no_files (Posix.platform "/home/user/project")
           NoFormats.build (fun _ _ => []) (fun l => l) NoFormats.options
           {| incrementCount := 4; trace := [] |}
           (fun l => Permutation_refl l) eq_refl).
Defined.

(** X16: [lastBuild] writes the destination path on every record of an
    array of outputs and changes nothing else of them; a single output
    and a watcher are returned as the bundler gave them, without any
    path; a rejection is passed on. *)
Theorem lastBuild_annotates :
  forall (P : Platform) (build : obj -> Outcome BuildOutput)
         (options : BuildFilesOptions) (fileRelativePath : string)
         (u : CreateBuildConfigOptions),
    let config := createBuildConfig options fileRelativePath u in
    let path := outputDir u ++ "/" ++ transformFilePath fileRelativePath in
    (forall os : list RollupOutput,
        build config = Fulfilled (OutputArray os) ->
        exists os' : list RollupOutput,
          lastBuild build options fileRelativePath u = Fulfilled (OutputArray os')
          /\ map (fun o => map fileName (output o)) os'
             = map (fun o => map fileName (output o)) os
          /\ forall o r, In o os' -> In r (output o) ->
                         outputFilePath r = Some path)
    /\ (forall o : RollupOutput,
           build config = Fulfilled (OutputSingle o) ->
           lastBuild build options fileRelativePath u = Fulfilled (OutputSingle o))
    /\ (build config = Fulfilled OutputWatcher ->
        lastBuild build options fileRelativePath u = Fulfilled OutputWatcher)
    /\ (build config = Rejected ->
        lastBuild build options fileRelativePath u = Rejected).
Proof.
  intros P build options f u config path.
  unfold lastBuild. fold config.
  split; [|split; [|split]].
  - intros os H. rewrite H. cbn [annotate]. eexists. split; [reflexivity|].
    split.
    + rewrite map_map. apply map_ext. intros o. cbn [output].
      rewrite map_map. now apply map_ext.
    + intros o r Ho Hr.
      apply in_map_iff in Ho as (o0 & <- & _). cbn [output] in Hr.
      apply in_map_iff in Hr as (r0 & <- & _). reflexivity.
  - intros o H. now rewrite H.
  - intros H. now rewrite H.
  - intros H. now rewrite H.
Qed.

(** X16 with a bundler that emits a chunk and a stylesheet for the [es]
    unit of [src/util/math.ts]. *)
Lemma lastBuild_annotates_two_chunks :
  @lastBuild (Posix.platform "/home/user/project") TwoChunks.build
    Scenario.options Scenario.file Scenario.esUnit
  = Fulfilled
      (OutputArray
         [{| output :=
               [ {| fileName := "math.js";
                    outputFilePath := Some "esm/util/math.js" |};
                 {| fileName := "math.css";
                    outputFilePath := Some "esm/util/math.js" |} ] |}])
  /\ exists os' : list RollupOutput,
       @lastBuild (Posix.platform "/home/user/project") TwoChunks.build
         Scenario.options Scenario.file Scenario.esUnit
       = Fulfilled (OutputArray os')
       /\ forall o r, In o os' -> In r (output o) ->
                      outputFilePath r = Some "esm/util/math.js".
Proof.
  split; [vm_compute; reflexivity|].
  destruct (proj1 (lastBuild_annotates (Posix.platform "/home/user/project")
                     TwoChunks.build Scenario.options Scenario.file
                     Scenario.esUnit) _ eq_refl) as (os' & H1 & _ & H3).
  exists os'. split; [exact H1 | exact H3].
Defined.
